(** * RDS KPI monitor: a shallow embedding of [handler.py]

    The handler lists the RDS instances of an account, reads two CloudWatch
    metrics for each, derives a free-storage percentage, renders the rows as
    an HTML table and a CSV attachment and mails them through SES.

    Python values are embedded as follows.
    - [float] is IEEE binary64, through the executable specification
      [SpecFloat] (precision 53, [emax] 1024): division and multiplication
      round to nearest, ties to even.
    - [int] is [Z]; the conversion to [float] raises [OverflowError] where
      CPython does.
    - a [dict] literal whose key order is observable (the report rows that
      become data-frame columns) is an association list; [os.environ] and the
      invocation payload are [gmap]s.
    - exceptions are values of [exn]; code that can raise lives in [result],
      code that also talks to AWS or the logger lives in [M], which threads
      the trace of calls made so far. *)

From Stdlib Require Import ZArith List Bool Lia Ascii String.
From Stdlib Require Import Floats.SpecFloat.
From Stdlib Require Import Numbers.DecimalString Numbers.DecimalN Numbers.DecimalFacts.
From stdpp Require Import gmap strings list.

Local Open Scope Z_scope.

(** ** Binary64 arithmetic *)

Module B64.

Definition prec : Z := 53.
Definition emax : Z := 1024.

Abbreviation float := spec_float.

Definition nan : float := S754_nan.
Definition div : float -> float -> float := SFdiv prec emax.
Definition mul : float -> float -> float := SFmul prec emax.
Definition ltb : float -> float -> bool := SFltb.
Definition leb : float -> float -> bool := SFleb.

(** The double nearest to an integer (ties to even); integers beyond the
    range of binary64 give an infinity. *)
Definition of_Z (z : Z) : float := binary_normalize prec emax z 0 false.

Definition is_inf (x : float) : bool :=
  match x with S754_infinity _ => true | _ => false end.

Definition is_zero (x : float) : bool :=
  match x with S754_zero _ => true | _ => false end.

(** [half_even a d] is the integer nearest to [a / d] for [d > 0], ties
    going to the even neighbour. *)
Definition half_even (a d : Z) : Z :=
  let (q, r) := Z.div_eucl a d in
  match Z.compare (2 * r) d with
  | Lt => q
  | Gt => q + 1
  | Eq => if Z.even q then q else q + 1
  end.

(** The number of hundredths nearest to the exact value [m * 2^e]. *)
Definition centi (m : positive) (e : Z) : Z :=
  match e with
  | Zneg p => half_even (100 * Zpos m) (2 ^ Zpos p)
  | _ => 100 * Zpos m * 2 ^ e
  end.

(** The double nearest to the decimal [n / 10^k] with sign [s]: what
    [strtod] returns for the digits [n] with [k] of them after the point. *)
Definition of_decimal (s : bool) (n : Z) (k : Z) : float :=
  match n with
  | Zpos p =>
      SFdiv prec emax (S754_finite s p 0)
        (S754_finite false (Z.to_pos (10 ^ k)) 0)
  | _ => S754_zero s
  end.

(** [round(x, 2)] on a float: CPython prints the exact value with two
    correctly rounded decimals and reads the digits back; infinities, NaN
    and zeros round to themselves. *)
Definition round2 (x : float) : float :=
  match x with
  | S754_finite s m e => of_decimal s (centi m e) 2
  | _ => x
  end.

End B64.

Abbreviation float := B64.float.

(** ** Exceptions and fallible computations *)

Inductive exn : Type := Exn (cls : string) (msg : string).

(** [str(e)] *)
Definition str_exn (e : exn) : string := let 'Exn _ msg := e in msg.

Inductive result (A : Type) : Type :=
| Ok (a : A)
| Raise (e : exn).
Arguments Ok {A} a.
Arguments Raise {A} e.

Definition rbind {A B} (r : result A) (k : A -> result B) : result B :=
  match r with
  | Ok a => k a
  | Raise e => Raise e
  end.

Declare Scope result_scope.
Delimit Scope result_scope with result.
Notation "x <- c ;; k" := (rbind c (fun x => k))
  (at level 100, c at next level, right associativity) : result_scope.

Fixpoint rmap {A B} (f : A -> result B) (l : list A) : result (list B) :=
  match l with
  | [] => Ok []
  | a :: l' => (b <- f a ;; bs <- rmap f l' ;; Ok (b :: bs))%result
  end.

(** ** Python numbers *)

Inductive number : Type :=
| Int (z : Z)
| Float (x : float).

(** [float(z)] for an int. *)
Definition float_of_int (z : Z) : result float :=
  let x := B64.of_Z z in
  if B64.is_inf x
  then Raise (Exn "OverflowError" "int too large to convert to float")
  else Ok x.

Definition to_float (n : number) : result float :=
  match n with
  | Int z => float_of_int z
  | Float x => Ok x
  end.

Definition int_as_spec (z : Z) : float :=
  match z with
  | Z0 => S754_zero false
  | Zpos p => S754_finite false p 0
  | Zneg p => S754_finite true p 0
  end.

(** [a / b]: true division.  Two ints give the correctly rounded quotient;
    otherwise both operands are converted to float first. *)
Definition truediv (a b : number) : result number :=
  match a, b with
  | Int x, Int y =>
      if y =? 0 then Raise (Exn "ZeroDivisionError" "division by zero")
      else if x =? 0 then Ok (Float (S754_zero (y <? 0)))
      else
        let q := B64.div (int_as_spec x) (int_as_spec y) in
        if B64.is_inf q
        then Raise (Exn "OverflowError" "integer division result too large for a float")
        else Ok (Float q)
  | _, _ =>
      (x <- to_float a ;;
       y <- to_float b ;;
       if B64.is_zero y
       then Raise (Exn "ZeroDivisionError" "float division by zero")
       else Ok (Float (B64.div x y)))%result
  end.

(** [a * b] *)
Definition mul (a b : number) : result number :=
  match a, b with
  | Int x, Int y => Ok (Int (x * y))
  | _, _ =>
      (x <- to_float a ;;
       y <- to_float b ;;
       Ok (Float (B64.mul x y)))%result
  end.

(** [round(a, 2)]: an int is returned as it is. *)
Definition round2 (a : number) : number :=
  match a with
  | Int z => Int z
  | Float x => Float (B64.round2 x)
  end.

(** [x < z] and [z <= x] for a float [x] and an int [z] that binary64
    holds exactly, as 15 and 20 are. *)
Definition float_lt_int (x : float) (z : Z) : bool := B64.ltb x (B64.of_Z z).
Definition int_le_float (z : Z) (x : float) : bool := B64.leb (B64.of_Z z) x.

(** ** Text of a number: [f"{x:.2f}"] and [float(s)] *)

Definition digit_char (d : Z) : ascii := ascii_of_nat (48 + Z.to_nat d).

Definition string_of_N (n : N) : string :=
  NilZero.string_of_uint (N.to_uint n).

(** [n] hundredths in fixed notation with two decimals, [n >= 0]. *)
Definition fixed2 (n : Z) : string :=
  string_of_N (Z.to_N (n / 100))
  +:+ String "."%char
        (String (digit_char (n mod 100 / 10))
           (String (digit_char (n mod 10)) "")).

Definition sign_string (s : bool) : string := if s then "-" else "".

Definition format_2f_float (x : float) : string :=
  match x with
  | S754_nan => "nan"
  | S754_infinity s => sign_string s +:+ "inf"
  | S754_zero s => sign_string s +:+ "0.00"
  | S754_finite s m e => sign_string s +:+ fixed2 (B64.centi m e)
  end.

(** [f"{x:.2f}"]: an int is converted to float before it is printed. *)
Definition format_2f (a : number) : result string :=
  (x <- to_float a ;; Ok (format_2f_float x))%result.

Fixpoint split_dot (s : string) : string * option string :=
  match s with
  | EmptyString => (EmptyString, None)
  | String c r =>
      if Ascii.eqb c "."%char then (EmptyString, Some r)
      else let (a, b) := split_dot r in (String c a, b)
  end.

Definition could_not_convert (s : string) : exn :=
  Exn "ValueError" ("could not convert string to float: '" +:+ s +:+ "'").

(** [float(s)] on plain decimal notation: an optional sign, then [nan],
    [inf], [infinity], or digits with an optional point.  This is the
    notation ['.2f'] prints; exponents, surrounding blanks, underscores and
    upper-case spellings, which CPython also reads, are outside the model
    and rejected here. *)
Definition float_of_string (s : string) : result float :=
  let (neg, body) :=
    match s with
    | String c r =>
        if Ascii.eqb c "-"%char then (true, r)
        else if Ascii.eqb c "+"%char then (false, r)
        else (false, s)
    | EmptyString => (false, s)
    end in
  if String.eqb body "nan" then Ok B64.nan
  else if String.eqb body "inf" || String.eqb body "infinity"
  then Ok (S754_infinity neg)
  else
    let (ip, fo) := split_dot body in
    let fp := default EmptyString fo in
    match NilEmpty.uint_of_string ip, NilEmpty.uint_of_string fp with
    | Some di, Some df =>
        if String.eqb ip "" && String.eqb fp "" then Raise (could_not_convert s)
        else
          let k := Z.of_nat (String.length fp) in
          Ok (B64.of_decimal neg
                (Z.of_N (N.of_uint di) * 10 ^ k + Z.of_N (N.of_uint df)) k)
    | _, _ => Raise (could_not_convert s)
    end.

(** ** JSON values of the invocation payload *)

#[warnings="-register-all"]
Inductive json : Type :=
| JNull
| JBool (b : bool)
| JNum (n : number)
| JStr (s : string)
| JArr (l : list json)
| JObj (kvs : list (string * json)).

(** ** The world outside the handler *)

(** An entry of [DBInstances] in the answer of [describe_db_instances]. *)
Record DBInstance : Type := {
  DBInstanceIdentifier : string;
  AllocatedStorage : Z;
  DBInstanceStatus : string
}.

(** An entry of [Datapoints]; [Timestamp] is a datetime, kept as the number
    of seconds since the epoch. *)
Record Datapoint : Type := {
  Timestamp : Z;
  Average : float
}.

(** A cell of a data frame or of a report row. *)
Inductive value : Type :=
| VStr (s : string)
| VNum (n : number).

Record DataFrame : Type := {
  columns : list string;
  data : list (list value)
}.

(** What [Styler.apply] hands to the renderer: the frame and, row by row, the
    CSS of each cell. *)
Record Styler : Type := {
  frame : DataFrame;
  css : list (list string)
}.

Inductive mime_part : Type :=
| MIMEText (content subtype : string)
| MIMEApplication (payload : list (list value)) (filename : string).

Record MIMEMultipart : Type := {
  Subject : string;
  From : string;
  To : string;
  parts : list mime_part
}.

(** Everything the handler reads from its surroundings: the process
    environment, the clock, the three AWS services, the template engine
    behind [Styler.to_html] ([render]) and the generator behind
    [msg.as_string()], whose text depends on a boundary drawn at random and
    which refuses a header holding an embedded header line.  Each of the
    calls may raise; [send_raw_email] receives [Source], [Destinations] and
    the text that [as_string] produced.  The clock is read once: [utcnow] is
    the collector's [end_time], and the two [strftime] fields are the date
    and the timestamp printed by the dispatcher. *)
Record World : Type := {
  environ : gmap string string;
  utcnow : Z;
  strftime_date : string;
  strftime_stamp : string;
  boto3_client : string -> result unit;
  describe_db_instances : result (list DBInstance);
  get_metric_statistics :
    string -> string -> Z -> Z -> Z -> result (list Datapoint);
  render : Styler -> result string;
  as_string : MIMEMultipart -> result string;
  send_raw_email : string -> json -> string -> result string
}.

(** A call that leaves the process, in the order it is made. *)
Inductive event : Type :=
| Boto3Client (service : string)
| DescribeDBInstances
| GetMetricStatistics (metric instance_id : string) (start_time end_time period : Z)
| ToHtml
| SendRawEmail (source : string) (destinations : json) (message : MIMEMultipart)
| Log (level msg : string).

(** ** Computations with a trace and exceptions *)

Definition M (A : Type) : Type := list event -> result A * list event.

Definition ret {A} (a : A) : M A := fun t => (Ok a, t).

Definition bind {A B} (c : M A) (k : A -> M B) : M B :=
  fun t =>
    match c t with
    | (Ok a, t') => k a t'
    | (Raise e, t') => (Raise e, t')
    end.

Definition lift {A} (r : result A) : M A := fun t => (r, t).

(** An outside call: it is recorded, then it answers or raises. *)
Definition call {A} (ev : event) (r : result A) : M A :=
  fun t => (r, t ++ [ev]).

Definition log (level msg : string) : M unit := call (Log level msg) (Ok tt).

(** [try: body  except Exception as e: handler(e)] *)
Definition try_except {A} (body : M A) (handler : exn -> M A) : M A :=
  fun t =>
    match body t with
    | (Ok a, t') => (Ok a, t')
    | (Raise e, t') => handler e t'
    end.

Declare Scope M_scope.
Delimit Scope M_scope with M.
Notation "x <- c ;; k" := (bind c (fun x => k))
  (at level 100, c at next level, right associativity) : M_scope.

(** A [for] loop that appends one result per element. *)
Fixpoint for_each {A B} (f : A -> M B) (l : list A) : M (list B) :=
  match l with
  | [] => ret []
  | a :: l' => (b <- f a ;; bs <- for_each f l' ;; ret (b :: bs))%M
  end.

(** ** [get_rds_metrics_report] *)

(** [max(l, key=...)]: the first element whose key is largest. *)
Definition max_by {A} (key : A -> Z) (l : list A) : option A :=
  match l with
  | [] => None
  | x :: xs =>
      Some (fold_left (fun best y => if key best <? key y then y else best) xs x)
  end.

(** Lines 63-68 and 79-86: the latest sample of a metric, from bytes to GB. *)
Definition latest_gb (datapoints : list Datapoint) : result number :=
  match max_by Timestamp datapoints with
  | None => Ok (Int 0)
  | Some latest_point =>
      (q <- truediv (Float (Average latest_point)) (Int (1024 * 1024 * 1024)) ;;
       Ok (round2 q))%result
  end.

(** Lines 71-75. *)
Definition free_storage_percent
    (free_storage_gb : number) (allocated_storage_gb : Z) : result number :=
  if 0 <? allocated_storage_gb then
    (q <- truediv free_storage_gb (Int allocated_storage_gb) ;;
     p <- mul q (Int 100) ;;
     Ok (round2 p))%result
  else Ok (Int 0).

Definition report_row : Type := list (string * value).

(** Lines 89-96: the dict appended to [results], in the order of its keys. *)
Definition report_dict (instance_id instance_state : string)
    (allocated_storage_gb : Z)
    (free_storage_gb free_storage_pct freeable_memory_gb : number) : report_row :=
  [ ("RDS Instance Name", VStr instance_id);
    ("Instance State", VStr instance_state);
    ("Allocated Space (GB)", VNum (Int allocated_storage_gb));
    ("Free Storage Space (GB)", VNum free_storage_gb);
    ("Free Storage Space (%)", VNum free_storage_pct);
    ("Freeable Memory (GB)", VNum freeable_memory_gb) ].

Definition instance_row (w : World) (end_time : Z) (instance : DBInstance)
  : M report_row :=
  (let instance_id := DBInstanceIdentifier instance in
   let allocated_storage_gb := AllocatedStorage instance in
   let instance_state := DBInstanceStatus instance in
   free_storage_response <-
     call (GetMetricStatistics "FreeStorageSpace" instance_id
             (end_time - 3600) end_time 300)
          (get_metric_statistics w "FreeStorageSpace" instance_id
             (end_time - 3600) end_time 300) ;;
   freeable_memory_response <-
     call (GetMetricStatistics "FreeableMemory" instance_id
             (end_time - 3600) end_time 300)
          (get_metric_statistics w "FreeableMemory" instance_id
             (end_time - 3600) end_time 300) ;;
   free_storage_gb <- lift (latest_gb free_storage_response) ;;
   free_storage_pct <-
     lift (free_storage_percent free_storage_gb allocated_storage_gb) ;;
   freeable_memory_gb <- lift (latest_gb freeable_memory_response) ;;
   ret (report_dict instance_id instance_state allocated_storage_gb
          free_storage_gb free_storage_pct freeable_memory_gb))%M.

Definition get_rds_metrics_report (w : World) : M (list report_row) :=
  (_ <- call (Boto3Client "rds") (boto3_client w "rds") ;;
   _ <- call (Boto3Client "cloudwatch") (boto3_client w "cloudwatch") ;;
   let end_time := utcnow w in
   instances <- call DescribeDBInstances (describe_db_instances w) ;;
   for_each (instance_row w end_time) instances)%M.

(** ** The data frame and its two renderings *)

Fixpoint assoc {A} (k : string) (kvs : list (string * A)) : option A :=
  match kvs with
  | [] => None
  | (k', v) :: rest => if String.eqb k k' then Some v else assoc k rest
  end.

(** Keys in the order of their first appearance over all records. *)
Definition union_keys (records : list report_row) : list string :=
  fold_left
    (fun acc r =>
       fold_left
         (fun acc' k => if existsb (String.eqb k) acc' then acc' else acc' ++ [k])
         (map fst r) acc)
    records [].

(** [pd.DataFrame(records)] for a list of dicts: a column per key, a row per
    record, NaN where a record lacks a key.  The widening of an int column
    that holds a float to float64 changes neither the column names nor the
    two-decimal text of a cell, and is left out. *)
Definition pd_DataFrame (records : list report_row) : DataFrame :=
  let cols := union_keys records in
  {| columns := cols;
     data :=
       map (fun r => map (fun c => default (VNum (Float B64.nan)) (assoc c r)) cols)
         records |}.

(** [df.to_csv(index=False)] as records: the header, then the rows.  The
    text of a cell and the quoting are the writer's business. *)
Definition to_csv (df : DataFrame) : list (list value) :=
  map VStr (columns df) :: data df.

Fixpoint index_of (k : string) (l : list string) : option nat :=
  match l with
  | [] => None
  | k' :: rest => if String.eqb k k' then Some 0%nat else S <$> index_of k rest
  end.

(** [df[col] = df[col].apply(f)] *)
Definition apply_column (f : value -> result value) (col : string) (df : DataFrame)
  : result DataFrame :=
  match index_of col (columns df) with
  | None => Raise (Exn "KeyError" col)
  | Some i =>
      (rows <- rmap (fun row =>
                       match row !! i with
                       | Some v => (v' <- f v ;; Ok (<[i := v']> row))
                       | None => Ok row
                       end) (data df) ;;
       Ok {| columns := columns df; data := rows |})%result
  end.

(** [lambda x: f"{x:.2f}"] on a cell. *)
Definition format_cell (v : value) : result value :=
  match v with
  | VNum n => (s <- format_2f n ;; Ok (VStr s))%result
  | VStr _ => Raise (Exn "ValueError" "Unknown format code 'f' for object of type 'str'")
  end.

Definition numeric_columns : list string :=
  [ "Allocated Space (GB)"; "Free Storage Space (GB)";
    "Free Storage Space (%)"; "Freeable Memory (GB)" ].

Definition format_numeric (df : DataFrame) : result DataFrame :=
  fold_left (fun acc col => (d <- acc ;; apply_column format_cell col d)%result)
    numeric_columns (Ok df).

(** [row[key]] on a row of the frame. *)
Definition getitem (row : list (string * value)) (key : string) : result value :=
  match assoc key row with
  | Some v => Ok v
  | None => Raise (Exn "KeyError" key)
  end.

(** [float(v)] *)
Definition float_of_value (v : value) : result float :=
  match v with
  | VStr s => float_of_string s
  | VNum n => to_float n
  end.

Definition red : string := "background-color: red".
Definition orange : string := "background-color: orange".

(** Lines 125-133. *)
Definition highlight_storage_percent (row : list (string * value))
  : result (list string) :=
  (cell <- getitem row "Free Storage Space (%)" ;;
   free_percent <- float_of_value cell ;;
   if float_lt_int free_percent 15 then Ok [""; ""; ""; ""; red; ""]
   else if float_lt_int free_percent 20 then Ok [""; ""; ""; ""; orange; ""]
   else Ok [""; ""; ""; ""; ""; ""])%result.

(** [df.style.apply(f, axis=1)]: [f] sees each row as a series indexed by
    the column names and must return one style per column. *)
Definition style_apply (f : list (string * value) -> result (list string))
    (df : DataFrame) : result Styler :=
  (styles <- rmap (fun row =>
                     (st <- f (combine (columns df) row) ;;
                      if (length st =? length (columns df))%nat then Ok st
                      else Raise (Exn "ValueError" "Function returned the wrong shape"))%result)
                  (data df) ;;
   Ok {| frame := df; css := styles |})%result.

(** [styled_df.to_html(index=False)]: the styles registered by [apply] are
    computed when the table is rendered. *)
Definition to_html (w : World) (f : list (string * value) -> result (list string))
    (df : DataFrame) : M string :=
  (_ <- call ToHtml (Ok tt) ;;
   styled_df <- lift (style_apply f df) ;;
   lift (render w styled_df))%M.

Definition html_content (date html_table : string) : string :=
  "
        <html>
        <head>
            <style>
                table { border-collapse: collapse; width: 100%; }
                th, td { padding: 8px; text-align: left; border-bottom: 1px solid #ddd; }
                th { background-color: #f2f2f2; }
            </style>
        </head>
        <body>
            <h2>RDS Metrics Report - " +:+ date +:+ "</h2>
            " +:+ html_table +:+ "
            <p>This is an automated report. Please find the CSV attachment for your records.</p>
            <p><strong>Note:</strong> Red cells indicate free storage space less than 15%, orange cells indicate less than 20%.</p>
        </body>
        </html>
        ".

(** ** [send_report_email] *)

Definition as_str (j : json) : result string :=
  match j with
  | JStr s => Ok s
  | _ => Raise (Exn "TypeError" "sequence item: expected str instance")
  end.

(** [", ".join(recipients)]: the items of a list, the characters of a
    string or the keys of a dict; anything else cannot be iterated. *)
Definition join_recipients (recipients : json) : result string :=
  match recipients with
  | JArr l => (items <- rmap as_str l ;; Ok (String.concat ", " items))%result
  | JStr s => Ok (String.concat ", " (map (fun c => String c "") (list_ascii_of_string s)))
  | JObj kvs => Ok (String.concat ", " (map fst kvs))
  | _ => Raise (Exn "TypeError" "can only join an iterable")
  end.

Definition attach (msg : MIMEMultipart) (part : mime_part) : MIMEMultipart :=
  {| Subject := Subject msg; From := From msg; To := To msg;
     parts := parts msg ++ [part] |}.

(** The body of the [try] block, lines 105-176.  The arguments of
    [send_raw_email] are evaluated before the call: when [msg.as_string()]
    raises, SES is not reached.  The event records the message whose text is
    submitted. *)
Definition send_report_email_try (w : World) (df : DataFrame)
    (csv_data : list (list value)) (recipients : json) : M bool :=
    (_ <- call (Boto3Client "ses") (boto3_client w "ses") ;;
     to <- lift (join_recipients recipients) ;;
     let msg :=
       {| Subject := "Weekly RDS Metrics Report - " +:+ strftime_date w;
          From := "admin01@readywire.com";
          To := to;
          parts := [] |} in
     formatted_df <- lift (format_numeric df) ;;
     html_table <- to_html w highlight_storage_percent formatted_df ;;
     let msg := attach msg (MIMEText (html_content (strftime_date w) html_table) "html") in
     let csv_filename := "rds_metrics_report_" +:+ strftime_stamp w +:+ ".csv" in
     let msg := attach msg (MIMEApplication csv_data csv_filename) in
     data <- lift (as_string w msg) ;;
     message_id <-
       call (SendRawEmail (From msg) recipients msg)
            (send_raw_email w (From msg) recipients data) ;;
     _ <- log "INFO" ("Email sent successfully! Message ID: " +:+ message_id) ;;
     ret true)%M.

(** Only [Exception] and its subclasses are modelled by [exn]; these are
    what [except Exception] catches. *)
Definition send_report_email (w : World) (df : DataFrame)
    (csv_data : list (list value)) (recipients : json) : M bool :=
  try_except (send_report_email_try w df csv_data recipients)
    (fun e =>
       (_ <- log "ERROR" ("Error sending email: " +:+ str_exn e) ;;
        ret false)%M).

(** ** [lambda_handler] *)

Record response : Type := {
  statusCode : Z;
  body : string
}.

(** [s.split(",")] *)
Fixpoint split_comma (s : string) : list string :=
  match s with
  | EmptyString => [EmptyString]
  | String c r =>
      if Ascii.eqb c ","%char then EmptyString :: split_comma r
      else match split_comma r with
           | h :: t => String c h :: t
           | [] => [String c EmptyString]
           end
  end.

(** The payload is a JSON object, or [None] when the module is run by hand;
    an empty dict is falsy. *)
Definition truthy (event : option (gmap string json)) : bool :=
  match event with
  | Some ev => bool_decide (ev ≠ ∅)
  | None => false
  end.

Definition contains (event : option (gmap string json)) (key : string) : bool :=
  match event with
  | Some ev => bool_decide (is_Some (ev !! key))
  | None => false
  end.

Definition event_getitem (event : option (gmap string json)) (key : string)
  : result json :=
  match event ≫= (fun ev => ev !! key) with
  | Some v => Ok v
  | None => Raise (Exn "KeyError" key)
  end.

(** Lines 187-193. *)
Definition resolve_recipients (w : World) (event : option (gmap string json))
  : result json :=
  let recipients :=
    JArr (map JStr
            (split_comma
               (default "saasadmin@readywire.com" (environ w !! "EMAIL_RECIPIENTS")))) in
  if truthy event && contains event "recipients"
  then event_getitem event "recipients"
  else Ok recipients.

Definition lambda_handler (w : World) (event : option (gmap string json))
  : M response :=
  try_except
    (recipients <- lift (resolve_recipients w event) ;;
     rds_metrics <- get_rds_metrics_report w ;;
     match rds_metrics with
     | [] =>
         _ <- log "WARNING" "No RDS instances found in the account." ;;
         ret {| statusCode := 200;
                body := "No RDS instances found in the account." |}
     | _ :: _ =>
         let df := pd_DataFrame rds_metrics in
         let csv_data := to_csv df in
         email_sent <- send_report_email w df csv_data recipients ;;
         ret {| statusCode := 200;
                body := "RDS metrics report generated and "
                        +:+ (if email_sent : bool then "email sent successfully"
                             else "failed to send email")
                        +:+ "." |}
     end)%M
    (fun e =>
       let error_message := "Error in lambda_handler: " +:+ str_exn e in
       (_ <- log "ERROR" error_message ;;
        ret {| statusCode := 500; body := error_message |})%M).

(** ** Vocabulary of the statements *)

(** [d] is a sample of [dps] with the largest timestamp. *)
Definition is_latest (d : Datapoint) (dps : list Datapoint) : Prop :=
  In d dps /\ forall d', In d' dps -> Timestamp d' <= Timestamp d.

Definition GiB : float := B64.of_Z (2 ^ 30).

(** The GB figure reported for a monitoring response. *)
Definition reported_gb (dps : list Datapoint) (n : number) : Prop :=
  match dps with
  | [] => n = Int 0
  | _ :: _ =>
      exists d, is_latest d dps /\
                n = Float (B64.round2 (B64.div (Average d) GiB))
  end.

(** The two monitoring requests made for an instance. *)
Definition storage_response (w : World) (end_time : Z) (i : DBInstance) :=
  get_metric_statistics w "FreeStorageSpace" (DBInstanceIdentifier i)
    (end_time - 3600) end_time 300.

Definition memory_response (w : World) (end_time : Z) (i : DBInstance) :=
  get_metric_statistics w "FreeableMemory" (DBInstanceIdentifier i)
    (end_time - 3600) end_time 300.

Definition metric_calls (end_time : Z) (i : DBInstance) : list event :=
  [ GetMetricStatistics "FreeStorageSpace" (DBInstanceIdentifier i)
      (end_time - 3600) end_time 300;
    GetMetricStatistics "FreeableMemory" (DBInstanceIdentifier i)
      (end_time - 3600) end_time 300 ].

(** [row] is the record the collector builds for [i]. *)
Definition row_of (w : World) (i : DBInstance) (row : report_row) : Prop :=
  exists fs fm gb pct mem,
    storage_response w (utcnow w) i = Ok fs /\
    memory_response w (utcnow w) i = Ok fm /\
    latest_gb fs = Ok gb /\
    free_storage_percent gb (AllocatedStorage i) = Ok pct /\
    latest_gb fm = Ok mem /\
    row = report_dict (DBInstanceIdentifier i) (DBInstanceStatus i)
            (AllocatedStorage i) gb pct mem.

(** Calls that belong to rendering and dispatch. *)
Definition dispatch_event (e : event) : bool :=
  match e with
  | Boto3Client service => String.eqb service "ses"
  | ToHtml => true
  | SendRawEmail _ _ _ => true
  | _ => false
  end.

(** Every call [c] adds to the trace satisfies [P]. *)
Definition emits {A} (P : event -> Prop) (c : M A) : Prop :=
  forall t, exists evs, snd (c t) = t ++ evs /\ Forall P evs.

Definition report_columns : list string :=
  [ "RDS Instance Name"; "Instance State"; "Allocated Space (GB)";
    "Free Storage Space (GB)"; "Free Storage Space (%)"; "Freeable Memory (GB)" ].

(** The header as the interface description words it. *)
Definition described_header : list string :=
  [ "Instance Name"; "Instance State"; "Allocated Space (GB)";
    "Free Storage Space (GB)"; "Free Storage Space (%)"; "Freeable Memory (GB)" ].

Definition is_report_dict (r : report_row) : Prop :=
  exists id st alloc gb pct mem, r = report_dict id st alloc gb pct mem.

(** The recipient list as the interface description words it: the value of
    the payload's [recipients] key when there is one, otherwise the
    comma-separated default of the environment. *)
Definition expected_recipients (w : World) (event : option (gmap string json))
  : json :=
  match event ≫= (fun ev => ev !! "recipients") with
  | Some v => v
  | None =>
      JArr (map JStr
              (split_comma
                 (default "saasadmin@readywire.com"
                    (environ w !! "EMAIL_RECIPIENTS"))))
  end.

(** The message handed to SES when composition succeeds. *)
Definition report_message (w : World) (to html_table : string)
    (csv_data : list (list value)) : MIMEMultipart :=
  {| Subject := "Weekly RDS Metrics Report - " +:+ strftime_date w;
     From := "admin01@readywire.com";
     To := to;
     parts :=
       [ MIMEText (html_content (strftime_date w) html_table) "html";
         MIMEApplication csv_data
           ("rds_metrics_report_" +:+ strftime_stamp w +:+ ".csv") ] |}.

(** A mail submission, if [e] is one, goes to [r] with [csv_data] attached. *)
Definition sent_to (w : World) (r : json) (csv_data : list (list value))
    (e : event) : Prop :=
  match e with
  | SendRawEmail source destinations message =>
      source = "admin01@readywire.com" /\ destinations = r /\
      exists to html_table,
        join_recipients r = Ok to /\
        message = report_message w to html_table csv_data
  | _ => True
  end.

Definition no_content_body : string := "No RDS instances found in the account.".

Definition report_body (email_sent : bool) : string :=
  "RDS metrics report generated and "
  +:+ (if email_sent then "email sent successfully" else "failed to send email")
  +:+ ".".

(** ** Sample worlds *)

Definition sample_instances : list DBInstance :=
  [ {| DBInstanceIdentifier := "db-1"; AllocatedStorage := 100;
       DBInstanceStatus := "available" |};
    {| DBInstanceIdentifier := "db-2"; AllocatedStorage := 0;
       DBInstanceStatus := "creating" |} ].

Definition db1_storage : list Datapoint :=
  [ {| Timestamp := 1699999400; Average := B64.of_Z (13 * 2 ^ 30) |};
    {| Timestamp := 1699999700; Average := B64.of_Z (12 * 2 ^ 30) |};
    {| Timestamp := 1699999100; Average := B64.of_Z (14 * 2 ^ 30) |} ].

Definition db1_memory : list Datapoint :=
  [ {| Timestamp := 1699999700; Average := B64.of_Z (3 * 2 ^ 29) |} ].

Definition sample_metrics (metric instance_id : string) (start_time end_time period : Z)
  : result (list Datapoint) :=
  if String.eqb instance_id "db-1" then
    if String.eqb metric "FreeStorageSpace" then Ok db1_storage else Ok db1_memory
  else Ok [].

(** [re.search(r'\n[^ \t]+:', s)]: the test for an embedded header line that
    [email.header] applies when a message is written out. *)
Fixpoint colon_after_run (s : string) : bool :=
  match s with
  | EmptyString => false
  | String c r =>
      if Ascii.eqb c ":"%char then true
      else if Ascii.eqb c " "%char || Ascii.eqb c "009"%char then false
      else colon_after_run r
  end.

Definition starts_header_line (s : string) : bool :=
  match s with
  | EmptyString => false
  | String c r =>
      if Ascii.eqb c " "%char || Ascii.eqb c "009"%char then false
      else colon_after_run r
  end.

Fixpoint embedded_header (s : string) : bool :=
  match s with
  | EmptyString => false
  | String c r =>
      (Ascii.eqb c "010"%char && starts_header_line r) || embedded_header r
  end.

(** The generator of the sample worlds: it refuses a header with an embedded
    header line and otherwise answers with the three headers, which stand
    for the whole text. *)
Definition sample_as_string (msg : MIMEMultipart) : result string :=
  if embedded_header (Subject msg) || embedded_header (From msg)
     || embedded_header (To msg)
  then Raise (Exn "HeaderParseError"
                "header value appears to contain an embedded header")
  else Ok ("Subject: " +:+ Subject msg +:+ String "010"%char
             ("From: " +:+ From msg +:+ String "010"%char ("To: " +:+ To msg))).

Definition sample_world : World :=
  {| environ := ∅;
     utcnow := 1700000000;
     strftime_date := "2023-11-14";
     strftime_stamp := "20231114_221320";
     boto3_client := fun _ => Ok tt;
     describe_db_instances := Ok sample_instances;
     get_metric_statistics := sample_metrics;
     render := fun _ => Ok "<table></table>";
     as_string := sample_as_string;
     send_raw_email := fun _ _ _ => Ok "0100018b-sample" |}.

(** The same account when SES rejects the message. *)
Definition rejecting_world : World :=
  {| environ := environ sample_world;
     utcnow := utcnow sample_world;
     strftime_date := strftime_date sample_world;
     strftime_stamp := strftime_stamp sample_world;
     boto3_client := boto3_client sample_world;
     describe_db_instances := describe_db_instances sample_world;
     get_metric_statistics := get_metric_statistics sample_world;
     render := render sample_world;
     as_string := as_string sample_world;
     send_raw_email := fun _ _ _ => Raise (Exn "ClientError" "MessageRejected") |}.

(** An account without instances, with a default recipient list configured. *)
Definition empty_world : World :=
  {| environ := {[ "EMAIL_RECIPIENTS" := "ops@example.com,dba@example.com" ]};
     utcnow := utcnow sample_world;
     strftime_date := strftime_date sample_world;
     strftime_stamp := strftime_stamp sample_world;
     boto3_client := boto3_client sample_world;
     describe_db_instances := Ok [];
     get_metric_statistics := get_metric_statistics sample_world;
     render := render sample_world;
     as_string := as_string sample_world;
     send_raw_email := send_raw_email sample_world |}.

(** The sample account with a default recipient list configured. *)
Definition configured_world : World :=
  {| environ := {[ "EMAIL_RECIPIENTS" := "ops@example.com,dba@example.com" ]};
     utcnow := utcnow sample_world;
     strftime_date := strftime_date sample_world;
     strftime_stamp := strftime_stamp sample_world;
     boto3_client := boto3_client sample_world;
     describe_db_instances := describe_db_instances sample_world;
     get_metric_statistics := get_metric_statistics sample_world;
     render := render sample_world;
     as_string := as_string sample_world;
     send_raw_email := send_raw_email sample_world |}.

Definition db1 : DBInstance :=
  {| DBInstanceIdentifier := "db-1"; AllocatedStorage := 100;
     DBInstanceStatus := "available" |}.

Definition sample_rows : list report_row :=
  [ report_dict "db-1" "available" 100
      (Float (B64.of_Z 12)) (Float (B64.of_Z 12))
      (Float (B64.of_decimal false 15 1));
    report_dict "db-2" "creating" 0 (Int 0) (Int 0) (Int 0) ].

Definition sample_calls : list event :=
  [ Boto3Client "rds"; Boto3Client "cloudwatch"; DescribeDBInstances;
    GetMetricStatistics "FreeStorageSpace" "db-1" 1699996400 1700000000 300;
    GetMetricStatistics "FreeableMemory" "db-1" 1699996400 1700000000 300;
    GetMetricStatistics "FreeStorageSpace" "db-2" 1699996400 1700000000 300;
    GetMetricStatistics "FreeableMemory" "db-2" 1699996400 1700000000 300 ].

(** The row of the formatted frame that belongs to [db-1]. *)
Definition db1_formatted_row : list (string * value) :=
  [ ("RDS Instance Name", VStr "db-1");
    ("Instance State", VStr "available");
    ("Allocated Space (GB)", VStr "100.00");
    ("Free Storage Space (GB)", VStr "12.00");
    ("Free Storage Space (%)", VStr "12.00");
    ("Freeable Memory (GB)", VStr "1.50") ].

(** The styled frame of the sample account, as handed to the renderer. *)
Definition sample_styler : Styler :=
  {| frame :=
       {| columns := report_columns;
          data :=
            [ [VStr "db-1"; VStr "available"; VStr "100.00"; VStr "12.00";
               VStr "12.00"; VStr "1.50"];
              [VStr "db-2"; VStr "creating"; VStr "0.00"; VStr "0.00";
               VStr "0.00"; VStr "0.00"] ] |};
     css := [ [""; ""; ""; ""; red; ""]; [""; ""; ""; ""; red; ""] ] |}.

(** ** Further vocabulary *)

(** The only calls the collector may make: its two clients, the listing, and
    metric requests for the two metrics over the hour before [end_time] at a
    period of five minutes. *)
Definition collector_call (end_time : Z) (e : event) : Prop :=
  match e with
  | Boto3Client service => service = "rds" \/ service = "cloudwatch"
  | DescribeDBInstances => True
  | GetMetricStatistics metric _ start_time end_time' period =>
      (metric = "FreeStorageSpace" \/ metric = "FreeableMemory") /\
      start_time = end_time - 3600 /\ end_time' = end_time /\ period = 300
  | _ => False
  end.

Definition is_submission (e : event) : bool :=
  match e with
  | SendRawEmail _ _ _ => true
  | _ => false
  end.

Fixpoint count_commas (s : string) : nat :=
  match s with
  | EmptyString => 0
  | String c r => (if Ascii.eqb c ","%char then 1 else 0) + count_commas r
  end.

Fixpoint has_comma (s : string) : bool :=
  match s with
  | EmptyString => false
  | String c r => Ascii.eqb c ","%char || has_comma r
  end.

(** The listing when CloudWatch throttles the memory request of [db-2]. *)
Definition throttled_metrics (metric instance_id : string)
    (start_time end_time period : Z) : result (list Datapoint) :=
  if String.eqb instance_id "db-2" && String.eqb metric "FreeableMemory"
  then Raise (Exn "ClientError" "Throttling")
  else sample_metrics metric instance_id start_time end_time period.

Definition throttled_world : World :=
  {| environ := environ sample_world;
     utcnow := utcnow sample_world;
     strftime_date := strftime_date sample_world;
     strftime_stamp := strftime_stamp sample_world;
     boto3_client := boto3_client sample_world;
     describe_db_instances :=
       Ok (sample_instances
           ++ [ {| DBInstanceIdentifier := "db-3"; AllocatedStorage := 50;
                   DBInstanceStatus := "available" |} ]);
     get_metric_statistics := throttled_metrics;
     render := render sample_world;
     as_string := as_string sample_world;
     send_raw_email := send_raw_email sample_world |}.

Definition count_submissions (evs : list event) : nat :=
  length (List.filter is_submission evs).

(** A request to mail the report to something that is not a list of strings. *)
Definition malformed_event : gmap string json :=
  {[ "recipients" := JArr [JStr "a@x.com"; JNull] ]}.

(** [line] is the row of the formatted frame for the record [row]: the
    identifier and the state as they are, each number as its text with two
    decimals. *)
Definition formatted_as (row : report_row) (line : list value) : Prop :=
  exists id st alloc gb pct mem s1 s2 s3 s4,
    row = report_dict id st alloc gb pct mem /\
    format_2f (Int alloc) = Ok s1 /\ format_2f gb = Ok s2 /\
    format_2f pct = Ok s3 /\ format_2f mem = Ok s4 /\
    line = [VStr id; VStr st; VStr s1; VStr s2; VStr s3; VStr s4].

Definition highlight_styles : list (list string) :=
  [ [""; ""; ""; ""; red; ""];
    [""; ""; ""; ""; orange; ""];
    [""; ""; ""; ""; ""; ""] ].

(** A frame that lacks the memory column. *)
Definition short_frame : DataFrame :=
  {| columns := [ "RDS Instance Name"; "Instance State"; "Allocated Space (GB)";
                  "Free Storage Space (GB)"; "Free Storage Space (%)" ];
     data := [ [VStr "db-1"; VStr "available"; VNum (Int 100);
                VNum (Float (B64.of_Z 12)); VNum (Float (B64.of_Z 12))] ] |}.

(** * Properties *)

(** ** The monads *)

Lemma bind_inv {A B} (c : M A) (k : A -> M B) t b t' :
  bind c k t = (Ok b, t') ->
  exists a t1, c t = (Ok a, t1) /\ k a t1 = (Ok b, t').
Proof.
  unfold bind. destruct (c t) as [[a|e] t1]; intros H.
  - now exists a, t1.
  - discriminate.
Qed.

Lemma for_each_inv {A B} (f : A -> M B) (P : A -> B -> Prop) :
  (forall a t b t', f a t = (Ok b, t') -> P a b) ->
  forall l t bs t', for_each f l t = (Ok bs, t') -> Forall2 P l bs.
Proof.
  intros Hf. induction l as [|a l IH]; intros t bs t' H; simpl in H.
  - inversion H. constructor.
  - apply bind_inv in H as (b & t1 & Hb & H).
    apply bind_inv in H as (bs' & t2 & Hbs & H).
    inversion H; subst. constructor; eauto.
Qed.

Lemma emits_ret {A} P (a : A) : emits P (ret a).
Proof. intros t. exists []. simpl. now rewrite app_nil_r. Qed.

Lemma emits_lift {A} P (r : result A) : emits P (lift r).
Proof. intros t. exists []. simpl. now rewrite app_nil_r. Qed.

Lemma emits_call {A} (P : event -> Prop) ev (r : result A) :
  P ev -> emits P (call ev r).
Proof. intros H t. exists [ev]. simpl. split; [reflexivity|]. now constructor. Qed.

Lemma emits_bind {A B} P (c : M A) (k : A -> M B) :
  emits P c -> (forall a, emits P (k a)) -> emits P (bind c k).
Proof.
  intros Hc Hk t. unfold bind.
  destruct (Hc t) as (evs & E & F). destruct (c t) as [[a|e] t1]; simpl in E; subst.
  - destruct (Hk a (t ++ evs)) as (evs' & E' & F').
    exists (evs ++ evs'). rewrite E', app_assoc. split; [reflexivity|].
    apply Forall_app; auto.
  - exists evs. auto.
Qed.

Lemma emits_for_each {A B} P (f : A -> M B) l :
  (forall a, emits P (f a)) -> emits P (for_each f l).
Proof.
  intros Hf. induction l as [|a l IH]; simpl.
  - apply emits_ret.
  - apply emits_bind; [apply Hf|]. intros b.
    apply emits_bind; [apply IH|]. intros bs. apply emits_ret.
Qed.

(** ** The collector *)

Lemma max_by_nil_iff {A} (key : A -> Z) l : max_by key l = None <-> l = [].
Proof. destruct l; simpl; split; congruence. Qed.

Lemma fold_best_spec {A} (key : A -> Z) (xs : list A) (x : A) :
  let m := fold_left (fun best y => if key best <? key y then y else best) xs x in
  In m (x :: xs) /\ forall y, In y (x :: xs) -> key y <= key m.
Proof.
  revert x. induction xs as [|y xs IH]; intros x; simpl.
  - split; [now left|]. intros y [->|[]]. lia.
  - specialize (IH (if key x <? key y then y else x)). simpl in IH.
    destruct IH as [Hin Hmax]. split.
    + destruct Hin as [Hin|Hin]; [|now right; right].
      rewrite <- Hin. destruct (key x <? key y); [right; now left|now left].
    + intros z Hz.
      assert (Hc : key x <= key (if key x <? key y then y else x) /\
                   key y <= key (if key x <? key y then y else x)).
      { destruct (Z.ltb_spec (key x) (key y)); lia. }
      destruct Hc as [Hx Hy].
      destruct Hz as [->|[->|Hz]].
      * etransitivity; [exact Hx|]. apply Hmax. now left.
      * etransitivity; [exact Hy|]. apply Hmax. now left.
      * apply Hmax. now right.
Qed.

Lemma max_by_latest (dps : list Datapoint) d :
  max_by Timestamp dps = Some d -> is_latest d dps.
Proof.
  destruct dps as [|x xs]; simpl; [discriminate|].
  intros [= <-]. apply (fold_best_spec Timestamp xs x).
Qed.

Lemma truediv_GiB (x : float) :
  truediv (Float x) (Int (1024 * 1024 * 1024)) = Ok (Float (B64.div x GiB)).
Proof. reflexivity. Qed.

Lemma latest_gb_some dps d :
  max_by Timestamp dps = Some d ->
  latest_gb dps = Ok (Float (B64.round2 (B64.div (Average d) GiB))).
Proof. intros H. unfold latest_gb. rewrite H, truediv_GiB. reflexivity. Qed.

Lemma latest_gb_reported dps :
  exists n, latest_gb dps = Ok n /\ reported_gb dps n.
Proof.
  destruct (max_by Timestamp dps) as [d|] eqn:E.
  - exists (Float (B64.round2 (B64.div (Average d) GiB))).
    split; [now apply latest_gb_some|].
    destruct dps as [|x xs]; [discriminate|].
    exists d. split; [now apply max_by_latest|reflexivity].
  - apply max_by_nil_iff in E. subst. exists (Int 0). split; reflexivity.
Qed.

Lemma instance_row_eq w end_time i t fs fm :
  storage_response w end_time i = Ok fs ->
  memory_response w end_time i = Ok fm ->
  instance_row w end_time i t =
    ((gb <- latest_gb fs ;;
      pct <- free_storage_percent gb (AllocatedStorage i) ;;
      mem <- latest_gb fm ;;
      Ok (report_dict (DBInstanceIdentifier i) (DBInstanceStatus i)
            (AllocatedStorage i) gb pct mem))%result,
     t ++ metric_calls end_time i).
Proof.
  unfold storage_response, memory_response. intros Hs Hm.
  unfold instance_row, bind, call, lift, ret. rewrite Hs, Hm.
  rewrite <- app_assoc. simpl.
  destruct (latest_gb fs) as [gb|e]; simpl; [|reflexivity].
  destruct (free_storage_percent gb (AllocatedStorage i)) as [pct|e]; simpl; [|reflexivity].
  destruct (latest_gb fm) as [mem|e]; reflexivity.
Qed.

Lemma instance_row_inv w i t row t' :
  instance_row w (utcnow w) i t = (Ok row, t') -> row_of w i row.
Proof.
  unfold instance_row, bind, call, lift, ret.
  fold (storage_response w (utcnow w) i). fold (memory_response w (utcnow w) i).
  destruct (storage_response w (utcnow w) i) as [fs|e] eqn:Hs; [|discriminate].
  destruct (memory_response w (utcnow w) i) as [fm|e] eqn:Hm; [|discriminate].
  destruct (latest_gb fs) as [gb|e] eqn:Hg; [|discriminate].
  destruct (free_storage_percent gb (AllocatedStorage i)) as [pct|e] eqn:Hp; [|discriminate].
  destruct (latest_gb fm) as [mem|e] eqn:Hf; [|discriminate].
  intros [= <- <-]. exists fs, fm, gb, pct, mem. auto 10.
Qed.

Lemma get_rds_metrics_report_inv w t rows t' :
  get_rds_metrics_report w t = (Ok rows, t') ->
  exists instances,
    describe_db_instances w = Ok instances /\ Forall2 (row_of w) instances rows.
Proof.
  unfold get_rds_metrics_report. intros H.
  apply bind_inv in H as (? & t1 & _ & H).
  apply bind_inv in H as (? & t2 & _ & H).
  apply bind_inv in H as (instances & t3 & Hd & H).
  exists instances. split.
  - unfold call in Hd. now inversion Hd.
  - eapply for_each_inv; [|exact H]. intros a ta b tb. apply instance_row_inv.
Qed.

Lemma for_each_run {A B} (f : A -> M B) (calls : A -> list event) l bs :
  Forall2 (fun a b => forall t, f a t = (Ok b, t ++ calls a)) l bs ->
  forall t, for_each f l t = (Ok bs, t ++ concat (map calls l)).
Proof.
  induction 1 as [|a b l bs Hab _ IH]; intros t; simpl.
  - unfold ret. now rewrite app_nil_r.
  - unfold bind at 1. rewrite Hab. unfold bind at 1. rewrite IH.
    unfold ret. now rewrite app_assoc.
Qed.

(** The collector returns exactly when its clients are created, the listing
    is answered and every instance yields a record; the records are in the
    order of the listing. *)
Lemma get_rds_metrics_report_run w t instances rows :
  boto3_client w "rds" = Ok tt ->
  boto3_client w "cloudwatch" = Ok tt ->
  describe_db_instances w = Ok instances ->
  Forall2 (row_of w) instances rows ->
  get_rds_metrics_report w t =
    (Ok rows,
     t ++ [Boto3Client "rds"; Boto3Client "cloudwatch"; DescribeDBInstances]
       ++ concat (map (metric_calls (utcnow w)) instances)).
Proof.
  intros Hr Hc Hd HF. unfold get_rds_metrics_report, bind at 1, call at 1.
  rewrite Hr. unfold bind at 1, call at 1. rewrite Hc.
  unfold bind at 1, call at 1. rewrite Hd.
  rewrite (for_each_run _ (metric_calls (utcnow w)) instances rows).
  - now rewrite <- !app_assoc.
  - eapply Forall2_impl; [exact HF|].
    intros i row (fs & fm & gb & pct & mem & Hs & Hm & Hg & Hp & Hf & ->) t0.
    rewrite (instance_row_eq _ _ _ _ _ _ Hs Hm), Hg. simpl. rewrite Hp. simpl.
    now rewrite Hf.
Qed.

Lemma Forall2_In_right {A B} (P : A -> B -> Prop) l l' b :
  Forall2 P l l' -> In b l' -> exists a, In a l /\ P a b.
Proof.
  induction 1 as [|a b' l l' Hab HF IH]; simpl; [tauto|].
  intros [<-|Hin].
  - exists a. auto.
  - destruct (IH Hin) as (a' & Ha & HP). exists a'. auto.
Qed.

Example sample_collection :
  get_rds_metrics_report sample_world [] = (Ok sample_rows, sample_calls).
Proof. vm_compute. reflexivity. Qed.

Lemma truediv_zero_raises gb :
  truediv gb (Int 0) <> Ok (Int 0) /\ exists msg, truediv gb (Int 0) = Raise (Exn "ZeroDivisionError" msg).
Proof.
  destruct gb as [z|x]; simpl.
  - split; [discriminate|eauto].
  - split; [discriminate|eauto].
Qed.

(** C1.  In every record the collector produces, the free-storage percentage
    is the value the guarded expression returned on the record's own GB
    figure and allocation.  When the allocation is 0 the field is the int 0,
    and it does not come from a division, which would raise
    [ZeroDivisionError]; when the allocation is positive (it is a capacity,
    never negative) the field is the GB figure divided by the allocation,
    times 100, rounded to two decimals. *)
Theorem percent_guarded_by_allocation w t rows t' row :
  get_rds_metrics_report w t = (Ok rows, t') ->
  In row rows ->
  exists alloc gb pct,
    assoc "Allocated Space (GB)" row = Some (VNum (Int alloc)) /\
    assoc "Free Storage Space (GB)" row = Some (VNum gb) /\
    assoc "Free Storage Space (%)" row = Some (VNum pct) /\
    free_storage_percent gb alloc = Ok pct /\
    (alloc = 0 ->
       pct = Int 0 /\
       exists msg, truediv gb (Int alloc) = Raise (Exn "ZeroDivisionError" msg)) /\
    (0 < alloc ->
       (q <- truediv gb (Int alloc) ;;
        p <- mul q (Int 100) ;;
        Ok (round2 p))%result = Ok pct).
Proof.
  intros Hrun Hin.
  apply get_rds_metrics_report_inv in Hrun as (instances & _ & HF).
  destruct (Forall2_In_right _ _ _ _ HF Hin) as (i & _ & Hrow).
  destruct Hrow as (fs & fm & gb & pct & mem & _ & _ & _ & Hp & _ & ->).
  exists (AllocatedStorage i), gb, pct.
  do 3 (split; [reflexivity|]). split; [exact Hp|]. split.
  - intros Hz. split.
    + unfold free_storage_percent in Hp. rewrite Hz in Hp. simpl in Hp. congruence.
    + rewrite Hz. apply truediv_zero_raises.
  - intros Hpos. unfold free_storage_percent in Hp.
    apply Z.ltb_lt in Hpos. now rewrite Hpos in Hp.
Qed.

Lemma percent_guarded_by_allocation_witness :
  exists alloc gb pct,
    assoc "Allocated Space (GB)" (report_dict "db-2" "creating" 0 (Int 0) (Int 0) (Int 0))
      = Some (VNum (Int alloc)) /\
    assoc "Free Storage Space (GB)" (report_dict "db-2" "creating" 0 (Int 0) (Int 0) (Int 0))
      = Some (VNum gb) /\
    assoc "Free Storage Space (%)" (report_dict "db-2" "creating" 0 (Int 0) (Int 0) (Int 0))
      = Some (VNum pct) /\
    free_storage_percent gb alloc = Ok pct /\
    (alloc = 0 ->
       pct = Int 0 /\
       exists msg, truediv gb (Int alloc) = Raise (Exn "ZeroDivisionError" msg)) /\
    (0 < alloc ->
       (q <- truediv gb (Int alloc) ;;
        p <- mul q (Int 100) ;;
        Ok (round2 p))%result = Ok pct).
Proof.
  apply (percent_guarded_by_allocation sample_world [] sample_rows sample_calls).
  - vm_compute. reflexivity.
  - simpl. auto.
Defined.

(** The guard is [> 0]: a negative allocation, which RDS never reports,
    would give 0 as well. *)
Lemma free_storage_percent_nonpositive gb alloc :
  alloc <= 0 -> free_storage_percent gb alloc = Ok (Int 0).
Proof.
  intros H. unfold free_storage_percent.
  destruct (Z.ltb_spec 0 alloc); [lia|reflexivity].
Qed.

(** C3.  For an instance whose two monitoring requests are answered, each
    reported GB figure is computed without error from its response: the int
    0 when the response has no datapoints, otherwise the [Average] of a
    datapoint with the largest [Timestamp], divided by 2^30 and rounded to
    two decimals.  These are the figures stored in the record. *)
Theorem latest_sample_reported w end_time i t fs fm :
  storage_response w end_time i = Ok fs ->
  memory_response w end_time i = Ok fm ->
  exists gb mem,
    latest_gb fs = Ok gb /\ reported_gb fs gb /\
    latest_gb fm = Ok mem /\ reported_gb fm mem /\
    instance_row w end_time i t =
      ((pct <- free_storage_percent gb (AllocatedStorage i) ;;
        Ok (report_dict (DBInstanceIdentifier i) (DBInstanceStatus i)
              (AllocatedStorage i) gb pct mem))%result,
       t ++ metric_calls end_time i).
Proof.
  intros Hs Hm.
  destruct (latest_gb_reported fs) as (gb & Hgb & Rgb).
  destruct (latest_gb_reported fm) as (mem & Hmem & Rmem).
  exists gb, mem. repeat split; auto.
  rewrite (instance_row_eq _ _ _ _ _ _ Hs Hm), Hgb, Hmem. simpl.
  now destruct (free_storage_percent gb (AllocatedStorage i)).
Qed.

Lemma latest_sample_reported_witness :
  exists gb mem,
    latest_gb db1_storage = Ok gb /\ reported_gb db1_storage gb /\
    latest_gb db1_memory = Ok mem /\ reported_gb db1_memory mem /\
    instance_row sample_world 1700000000 db1 [] =
      ((pct <- free_storage_percent gb (AllocatedStorage db1) ;;
        Ok (report_dict (DBInstanceIdentifier db1) (DBInstanceStatus db1)
              (AllocatedStorage db1) gb pct mem))%result,
       [] ++ metric_calls 1700000000 db1).
Proof.
  apply (latest_sample_reported sample_world 1700000000 db1 [] db1_storage db1_memory);
    reflexivity.
Defined.

(** C9.  For an instance with a positive allocation and a non-empty storage
    response, the record holds the GB figure already rounded to two decimals
    and the percentage computed from that rounded figure,
    [round((round(bytes / 2^30, 2) / allocated) * 100, 2)]; hence another
    response whose latest sample rounds to the same GB figure yields the same
    percentage. *)
Theorem percent_from_rounded_gb w end_time i t fs fm d :
  storage_response w end_time i = Ok fs ->
  memory_response w end_time i = Ok fm ->
  0 < AllocatedStorage i ->
  max_by Timestamp fs = Some d ->
  let gb := Float (B64.round2 (B64.div (Average d) GiB)) in
  (exists mem,
     instance_row w end_time i t =
       ((pct <- (q <- truediv gb (Int (AllocatedStorage i)) ;;
                 p <- mul q (Int 100) ;;
                 Ok (round2 p)) ;;
         Ok (report_dict (DBInstanceIdentifier i) (DBInstanceStatus i)
               (AllocatedStorage i) gb pct mem))%result,
        t ++ metric_calls end_time i)) /\
  (forall fs' d',
     max_by Timestamp fs' = Some d' ->
     B64.round2 (B64.div (Average d') GiB) = B64.round2 (B64.div (Average d) GiB) ->
     (g <- latest_gb fs' ;; free_storage_percent g (AllocatedStorage i))%result =
     (g <- latest_gb fs ;; free_storage_percent g (AllocatedStorage i))%result).
Proof.
  intros Hs Hm Hpos Hd gb. split.
  - destruct (latest_gb_reported fm) as (mem & Hmem & _).
    exists mem.
    rewrite (instance_row_eq _ _ _ _ _ _ Hs Hm), (latest_gb_some _ _ Hd), Hmem.
    unfold free_storage_percent. apply Z.ltb_lt in Hpos. rewrite Hpos.
    fold gb. simpl.
    destruct (truediv gb (Int (AllocatedStorage i))) as [q|e]; simpl; [|reflexivity].
    now destruct (mul q (Int 100)).
  - intros fs' d' Hd' Heq.
    now rewrite (latest_gb_some _ _ Hd'), (latest_gb_some _ _ Hd), Heq.
Qed.

Lemma percent_from_rounded_gb_witness :
  let d := {| Timestamp := 1699999700; Average := B64.of_Z (12 * 2 ^ 30) |} in
  let gb := Float (B64.round2 (B64.div (Average d) GiB)) in
  (exists mem,
     instance_row sample_world 1700000000 db1 [] =
       ((pct <- (q <- truediv gb (Int (AllocatedStorage db1)) ;;
                 p <- mul q (Int 100) ;;
                 Ok (round2 p)) ;;
         Ok (report_dict (DBInstanceIdentifier db1) (DBInstanceStatus db1)
               (AllocatedStorage db1) gb pct mem))%result,
        [] ++ metric_calls 1700000000 db1)) /\
  (forall fs' d',
     max_by Timestamp fs' = Some d' ->
     B64.round2 (B64.div (Average d') GiB) = B64.round2 (B64.div (Average d) GiB) ->
     (g <- latest_gb fs' ;; free_storage_percent g (AllocatedStorage db1))%result =
     (g <- latest_gb db1_storage ;; free_storage_percent g (AllocatedStorage db1))%result).
Proof.
  apply (percent_from_rounded_gb sample_world 1700000000 db1 [] db1_storage db1_memory).
  - reflexivity.
  - reflexivity.
  - vm_compute. reflexivity.
  - vm_compute. reflexivity.
Defined.

(** Rounding first is visible: 1078036791 bytes are 1.004 GB, reported as
    1.0 GB; of an allocation of 3 GB that is 33.33 percent, where the
    unrounded figure would give 33.47. *)
Example rounding_first_matters :
  let raw := B64.div (B64.of_Z 1078036791) GiB in
  free_storage_percent (Float (B64.round2 raw)) 3
    = Ok (Float (B64.of_decimal false 3333 2)) /\
  free_storage_percent (Float raw) 3
    = Ok (Float (B64.of_decimal false 3347 2)).
Proof. vm_compute. split; reflexivity. Qed.

(** ** Comparison of floats *)

Lemma SFcompare_antisym x y :
  SFcompare y x = option_map CompOpp (SFcompare x y).
Proof.
  destruct x as [s| s| |s m e], y as [s'|s'| |s' m' e']; simpl;
    try reflexivity; try (destruct s; reflexivity);
    try (destruct s'; reflexivity); try (destruct s, s'; reflexivity).
  f_equal. destruct s, s'; simpl; try reflexivity;
    rewrite (Z.compare_antisym e e'); destruct (e ?= e'); simpl; try reflexivity;
    pose proof (Pos.compare_cont_antisym m m' Eq) as H; simpl in H;
    rewrite <- H; now destruct (Pos.compare_cont Eq m m').
Qed.

Lemma leb_not_ltb a p : B64.leb a p = true -> B64.ltb p a = false.
Proof.
  unfold B64.leb, B64.ltb, SFleb, SFltb. rewrite (SFcompare_antisym a p).
  destruct (SFcompare a p) as [[| |]|]; simpl; congruence.
Qed.

Lemma at_least_not_below z p :
  int_le_float z p = true -> float_lt_int p z = false.
Proof. apply leb_not_ltb. Qed.

Lemma of_Z_15 : B64.of_Z 15 = S754_finite false 8444249301319680 (-49).
Proof. vm_compute. reflexivity. Qed.

Lemma of_Z_20 : B64.of_Z 20 = S754_finite false 5629499534213120 (-48).
Proof. vm_compute. reflexivity. Qed.

Lemma at_least_20_not_below_15 p :
  int_le_float 20 p = true -> float_lt_int p 15 = false.
Proof.
  unfold int_le_float, float_lt_int, B64.leb, B64.ltb, SFleb, SFltb.
  rewrite of_Z_15, of_Z_20.
  destruct p as [s|s| |s m e].
  - destruct s; cbn; congruence.
  - destruct s; cbn; congruence.
  - cbn. congruence.
  - destruct s; [cbn; congruence|].
    cbn -[Z.compare Pos.compare_cont].
    destruct (Z.compare_spec (-48) e) as [<-|Hlt|Hgt].
    + intros _. reflexivity.
    + intros _. destruct (Z.compare_spec e (-49)); [lia|lia|reflexivity].
    + discriminate.
Qed.

(** ** Printing with two decimals and reading back *)

Lemma split_dot_digits u rest :
  split_dot (NilEmpty.string_of_uint u +:+ String "."%char rest)
  = (NilEmpty.string_of_uint u, Some rest).
Proof.
  induction u; simpl; try reflexivity; now rewrite IHu.
Qed.

Lemma string_of_N_alt n :
  string_of_N n = NilEmpty.string_of_uint (N.to_uint n) /\
  exists c r, string_of_N n = String c r /\
              (48 <= Z.of_nat (nat_of_ascii c) <= 57).
Proof.
  unfold string_of_N, NilZero.string_of_uint.
  assert (Hnn : N.to_uint n <> Decimal.Nil).
  { destruct n; simpl; [discriminate|apply DecimalPos.Unsigned.to_uint_nonnil]. }
  destruct (N.to_uint n) as [|u|u|u|u|u|u|u|u|u|u]; [congruence| ..];
    (split; [reflexivity|]); simpl; eexists _, _; (split; [reflexivity|]);
    split; vm_compute; discriminate.
Qed.

Lemma digit_first_not_keyword c r :
  48 <= Z.of_nat (nat_of_ascii c) <= 57 ->
  (c <> "-" /\ c <> "+")%char /\
  String.eqb (String c r) "nan" = false /\
  String.eqb (String c r) "inf" = false /\
  String.eqb (String c r) "infinity" = false /\
  String.eqb (String c r) "" = false.
Proof.
  intros H.
  assert (Hc : (c <> "-" /\ c <> "+" /\ c <> "n" /\ c <> "i")%char).
  { repeat split; intros ->; vm_compute in H; destruct H as [Hlo Hhi];
      (now apply Hlo) || (now apply Hhi). }
  destruct Hc as (H1 & H2 & H3 & H4).
  repeat split; auto; simpl.
  - apply Ascii.eqb_neq in H3. now rewrite H3.
  - apply Ascii.eqb_neq in H4. now rewrite H4.
  - apply Ascii.eqb_neq in H4. now rewrite H4.
Qed.

Lemma two_digits_value r :
  0 <= r < 100 ->
  NilEmpty.uint_of_string
    (String (digit_char (r / 10)) (String (digit_char (r mod 10)) ""))
  <> None /\
  forall u,
    NilEmpty.uint_of_string
      (String (digit_char (r / 10)) (String (digit_char (r mod 10)) "")) = Some u ->
    Z.of_N (N.of_uint u) = r.
Proof.
  intros H.
  assert (Hq : 0 <= r / 10 < 10) by (split; [apply Z.div_pos|apply Z.div_lt_upper_bound]; lia).
  assert (Hm : 0 <= r mod 10 < 10) by (apply Z.mod_pos_bound; lia).
  assert (Hr : r = 10 * (r / 10) + r mod 10) by (apply Z.div_mod; lia).
  revert Hq Hm Hr. generalize (r / 10) (r mod 10). intros a b Ha Hb ->.
  assert (Ea : a = 0 \/ a = 1 \/ a = 2 \/ a = 3 \/ a = 4 \/ a = 5 \/ a = 6 \/
               a = 7 \/ a = 8 \/ a = 9) by lia.
  assert (Eb : b = 0 \/ b = 1 \/ b = 2 \/ b = 3 \/ b = 4 \/ b = 5 \/ b = 6 \/
               b = 7 \/ b = 8 \/ b = 9) by lia.
  repeat (destruct Ea as [->|Ea]); try subst a;
    repeat (destruct Eb as [->|Eb]); try subst b;
    (split; [discriminate|intros u [= <-]; reflexivity]).
Qed.

Lemma div_eucl_alt a d : Z.div_eucl a d = (a / d, a mod d).
Proof. unfold Z.div, Z.modulo. now destruct (Z.div_eucl a d). Qed.

(** [half_even a d] is a nearest integer to [a / d], the even one on a tie. *)
Lemma half_even_nearest a d :
  0 < d ->
  2 * Z.abs (a - B64.half_even a d * d) <= d /\
  (2 * Z.abs (a - B64.half_even a d * d) = d -> Z.even (B64.half_even a d) = true).
Proof.
  intros Hd. unfold B64.half_even. rewrite div_eucl_alt.
  pose proof (Z.mod_pos_bound a d Hd) as Hr.
  pose proof (Z.div_mod a d ltac:(lia)) as Ha.
  destruct (Z.compare_spec (2 * (a mod d)) d) as [He|Hlt|Hgt].
  - destruct (Z.even (a / d)) eqn:Ev.
    + split; [lia|auto].
    + split; [lia|]. intros _. rewrite Z.even_add, Ev. reflexivity.
  - split; [lia|]. lia.
  - split; [lia|]. lia.
Qed.

Lemma half_even_nonneg a d : 0 <= a -> 0 < d -> 0 <= B64.half_even a d.
Proof.
  intros Ha Hd. unfold B64.half_even. rewrite div_eucl_alt.
  assert (0 <= a / d) by (apply Z.div_pos; lia).
  destruct (2 * (a mod d) ?= d); [destruct (Z.even (a / d))| |]; lia.
Qed.

Lemma centi_nonneg m e : 0 <= B64.centi m e.
Proof.
  unfold B64.centi. destruct e as [|p|p].
  - lia.
  - assert (0 < 2 ^ Z.pos p) by (apply Z.pow_pos_nonneg; lia). nia.
  - apply half_even_nonneg; [lia|]. apply Z.pow_pos_nonneg; lia.
Qed.

Lemma float_of_string_fixed2 s n :
  0 <= n ->
  float_of_string (sign_string s +:+ fixed2 n) = Ok (B64.of_decimal s n 2).
Proof.
  intros Hn. unfold fixed2.
  destruct (string_of_N_alt (Z.to_N (n / 100))) as (Hs & c & r & Hc & Hd).
  destruct (digit_first_not_keyword c r Hd) as ((Hm & Hp) & Hnan & Hinf & Hity & Hemp).
  set (frac := String (digit_char (n mod 100 / 10))
                 (String (digit_char (n mod 10)) "")).
  assert (Hbody : forall neg,
    (let body := string_of_N (Z.to_N (n / 100)) +:+ String "."%char frac in
     if String.eqb body "nan" then Ok B64.nan
     else if String.eqb body "inf" || String.eqb body "infinity"
     then Ok (S754_infinity neg)
     else
       let (ip, fo) := split_dot body in
       let fp := default EmptyString fo in
       match NilEmpty.uint_of_string ip, NilEmpty.uint_of_string fp with
       | Some di, Some df =>
           if String.eqb ip "" && String.eqb fp ""
           then Raise (could_not_convert (sign_string s +:+ body))
           else
             let k := Z.of_nat (String.length fp) in
             Ok (B64.of_decimal neg
                   (Z.of_N (N.of_uint di) * 10 ^ k + Z.of_N (N.of_uint df)) k)
       | _, _ => Raise (could_not_convert (sign_string s +:+ body))
       end) = Ok (B64.of_decimal neg n 2)).
  { intros neg. cbv zeta.
    assert (Hb : exists r', string_of_N (Z.to_N (n / 100)) +:+ String "."%char frac
                            = String c r').
    { rewrite Hc. simpl. eauto. }
    destruct Hb as (r' & Hb).
    destruct (digit_first_not_keyword c r' Hd) as (_ & Hnan' & Hinf' & Hity' & _).
    rewrite Hb, Hnan', Hinf', Hity'. simpl orb. cbv iota. rewrite <- Hb.
    rewrite Hs at 1. rewrite split_dot_digits. cbn [default from_option]. unfold id.
    rewrite NilEmpty.usu.
    assert (Hr : 0 <= n mod 100 < 100) by (apply Z.mod_pos_bound; lia).
    assert (Hmm : n mod 10 = (n mod 100) mod 10).
    { change 100 with (10 * 10). rewrite Z.rem_mul_r by lia.
      rewrite (Z.mul_comm 10), Z.mod_add by lia. now rewrite Z.mod_mod by lia. }
    destruct (two_digits_value (n mod 100) Hr) as (Hsome & Hval).
    unfold frac at 1 2. rewrite Hmm.
    destruct (NilEmpty.uint_of_string _) as [u|] eqn:Eu; [|now elim Hsome].
    rewrite <- Hs, Hc, Hemp. cbn [andb].
    rewrite (Hval u eq_refl), DecimalN.Unsigned.of_to.
    unfold frac. cbn [String.length]. change (Z.of_nat 2) with 2.
    f_equal. f_equal.
    rewrite Z2N.id by (apply Z.div_pos; lia).
    change (10 ^ 2) with 100. symmetry. rewrite Z.mul_comm. apply Z.div_mod. lia. }
  assert (Hb : exists r', string_of_N (Z.to_N (n / 100)) +:+ String "."%char frac
                          = String c r').
  { rewrite Hc. simpl. eauto. }
  destruct Hb as (r' & Hb).
  destruct s; cbn [sign_string].
  - change ("-" +:+ ?x) with (String "-"%char x). unfold float_of_string.
    exact (Hbody true).
  - change ("" +:+ ?x) with x. unfold float_of_string.
    specialize (Hbody false). cbn [sign_string] in Hbody.
    change ("" +:+ ?x) with x in Hbody. revert Hbody.
    rewrite Hb.
    apply Ascii.eqb_neq in Hm, Hp. rewrite Hm, Hp. trivial.
Qed.

Lemma float_of_format x :
  float_of_string (format_2f_float x) = Ok (B64.round2 x).
Proof.
  destruct x as [s|s| |s m e]; simpl format_2f_float.
  - destruct s; vm_compute; reflexivity.
  - destruct s; vm_compute; reflexivity.
  - vm_compute. reflexivity.
  - apply float_of_string_fixed2, centi_nonneg.
Qed.

Lemma format_2f_inv x s :
  format_2f x = Ok s ->
  exists f, to_float x = Ok f /\ s = format_2f_float f.
Proof.
  unfold format_2f. destruct (to_float x) as [f|e]; simpl; intros [= <-].
  now exists f.
Qed.

Lemma highlight_of_cell row s p :
  getitem row "Free Storage Space (%)" = Ok (VStr s) ->
  float_of_string s = Ok p ->
  highlight_storage_percent row =
    if float_lt_int p 15 then Ok [""; ""; ""; ""; red; ""]
    else if float_lt_int p 20 then Ok [""; ""; ""; ""; orange; ""]
    else Ok [""; ""; ""; ""; ""; ""].
Proof.
  intros Hg Hp. unfold highlight_storage_percent. rewrite Hg. simpl. now rewrite Hp.
Qed.

Lemma parse_14_99 :
  float_of_string "14.99" = Ok (S754_finite false 8438619801785467 (-49)).
Proof. vm_compute. reflexivity. Qed.

Lemma parse_15_00 :
  float_of_string "15.00" = Ok (S754_finite false 8444249301319680 (-49)).
Proof. vm_compute. reflexivity. Qed.

Lemma parse_20_00 :
  float_of_string "20.00" = Ok (S754_finite false 5629499534213120 (-48)).
Proof. vm_compute. reflexivity. Qed.

(** ** The data frame *)

Lemma rmap_inv {A B} (f : A -> result B) l l' :
  rmap f l = Ok l' -> Forall2 (fun a b => f a = Ok b) l l'.
Proof.
  revert l'. induction l as [|a l IH]; simpl; intros l' H.
  - injection H as <-. constructor.
  - destruct (f a) as [b|e] eqn:Ea; simpl in H; [|discriminate].
    destruct (rmap f l) as [bs|e]; simpl in H; [|discriminate].
    injection H as <-. constructor; auto.
Qed.

Lemma row_of_is_report_dict w i row : row_of w i row -> is_report_dict row.
Proof.
  intros (fs & fm & gb & pct & mem & _ & _ & _ & _ & _ & ->).
  unfold is_report_dict. eauto 10.
Qed.

Lemma collected_rows_shape w t rows t' :
  get_rds_metrics_report w t = (Ok rows, t') -> Forall is_report_dict rows.
Proof.
  intros H. apply get_rds_metrics_report_inv in H as (instances & _ & HF).
  induction HF; constructor; eauto using row_of_is_report_dict.
Qed.

Lemma union_keys_report rows :
  Forall is_report_dict rows -> rows <> [] -> union_keys rows = report_columns.
Proof.
  intros HF Hne. destruct HF as [|r rs Hr Hrs]; [congruence|].
  unfold union_keys. simpl fold_left at 1.
  destruct Hr as (id & st & alloc & gb & pct & mem & ->).
  change (fold_left _ (map fst (report_dict id st alloc gb pct mem)) [])
    with report_columns.
  clear Hne. induction Hrs as [|r' rs' Hr' _ IH]; [reflexivity|].
  simpl fold_left at 1.
  destruct Hr' as (id' & st' & alloc' & gb' & pct' & mem' & ->).
  exact IH.
Qed.

Lemma pd_DataFrame_report rows :
  Forall is_report_dict rows -> rows <> [] ->
  pd_DataFrame rows = {| columns := report_columns; data := map (map snd) rows |}.
Proof.
  intros HF Hne. unfold pd_DataFrame. rewrite (union_keys_report rows HF Hne).
  f_equal. apply map_ext_Forall. eapply Forall_impl; [exact HF|].
  intros r (id & st & alloc & gb & pct & mem & ->). reflexivity.
Qed.


Lemma Forall2_compose {A B C} (P : A -> B -> Prop) (Q : B -> C -> Prop) l l1 l2 :
  Forall2 P l l1 -> Forall2 Q l1 l2 ->
  Forall2 (fun a c => exists b, P a b /\ Q b c) l l2.
Proof.
  intros HP. revert l2. induction HP as [|a b l l1 Hab _ IH]; intros l2 HQ.
  - inversion HQ. constructor.
  - inversion HQ as [|b' c l1' l2' Hbc HQ']; subst. constructor; eauto.
Qed.

Lemma apply_column_inv f col df df' i :
  index_of col (columns df) = Some i ->
  apply_column f col df = Ok df' ->
  columns df' = columns df /\
  Forall2 (fun row row' =>
             match row !! i with
             | Some v => (v' <- f v ;; Ok (<[i := v']> row))%result
             | None => Ok row
             end = Ok row') (data df) (data df').
Proof.
  intros Hi. unfold apply_column. rewrite Hi.
  destruct (rmap _ (data df)) as [rows|e] eqn:E; simpl; [|discriminate].
  intros [= <-]. simpl. split; [reflexivity|]. now apply rmap_inv.
Qed.

Lemma style_apply_inv f df st :
  style_apply f df = Ok st ->
  frame st = df /\
  Forall2 (fun line styles => f (combine (columns df) line) = Ok styles)
    (data df) (css st).
Proof.
  unfold style_apply.
  destruct (rmap _ (data df)) as [styles|e] eqn:E; simpl; [|discriminate].
  intros [= <-]. simpl. split; [reflexivity|].
  apply rmap_inv in E. eapply Forall2_impl; [exact E|].
  intros line st H. simpl in H.
  destruct (f (combine (columns df) line)) as [st'|e]; simpl in H; [|discriminate].
  destruct (length st' =? length (columns df))%nat; congruence.
Qed.

(** The formatted frame of a report: every numeric cell is replaced by its
    text with two decimals. *)
Lemma format_numeric_report rows fdf :
  Forall is_report_dict rows ->
  format_numeric {| columns := report_columns; data := map (map snd) rows |} = Ok fdf ->
  columns fdf = report_columns /\
  Forall2 (fun row line =>
             exists id st alloc gb pct mem s1 s2 s3 s4,
               row = report_dict id st alloc gb pct mem /\
               format_2f (Int alloc) = Ok s1 /\ format_2f gb = Ok s2 /\
               format_2f pct = Ok s3 /\ format_2f mem = Ok s4 /\
               line = [VStr id; VStr st; VStr s1; VStr s2; VStr s3; VStr s4])
    rows (data fdf).
Proof.
  intros Hshape. unfold format_numeric, numeric_columns. simpl fold_left.
  set (df := {| columns := report_columns; data := map (map snd) rows |}).
  destruct (apply_column format_cell "Allocated Space (GB)" df) as [d1|e] eqn:E1;
    simpl; [|discriminate].
  destruct (apply_column format_cell "Free Storage Space (GB)" d1) as [d2|e] eqn:E2;
    simpl; [|discriminate].
  destruct (apply_column format_cell "Free Storage Space (%)" d2) as [d3|e] eqn:E3;
    simpl; [|discriminate].
  intros E4.
  apply (apply_column_inv _ _ _ _ 2%nat) in E1 as [C1 F1]; [|reflexivity].
  apply (apply_column_inv _ _ _ _ 3%nat) in E2 as [C2 F2]; [|now rewrite C1].
  apply (apply_column_inv _ _ _ _ 4%nat) in E3 as [C3 F3]; [|now rewrite C2, C1].
  apply (apply_column_inv _ _ _ _ 5%nat) in E4 as [C4 F4]; [|now rewrite C3, C2, C1].
  split; [now rewrite C4, C3, C2, C1|].
  pose proof (Forall2_compose _ _ _ _ _ (Forall2_compose _ _ _ _ _
                (Forall2_compose _ _ _ _ _ F1 F2) F3) F4) as F.
  clear F1 F2 F3 F4 C1 C2 C3 C4. simpl in F.
  revert F. generalize (data fdf). clear - Hshape.
  induction Hshape as [|row rows Hrow _ IH]; intros lines F; simpl in F.
  - inversion F. constructor.
  - inversion F as [|r line rs lines' Hline F']; subst. constructor; [|now apply IH].
    destruct Hrow as (id & st & alloc & gb & pct & mem & ->).
    destruct Hline as (r3 & (r2 & (r1 & H1 & H2) & H3) & H4).
    cbn in H1.
    destruct (format_2f (Int alloc)) as [s1|e] eqn:Fa; simpl in H1; [|discriminate].
    injection H1 as <-. cbn in H2.
    destruct (format_2f gb) as [s2|e] eqn:Fg; simpl in H2; [|discriminate].
    injection H2 as <-. cbn in H3.
    destruct (format_2f pct) as [s3|e] eqn:Fp; simpl in H3; [|discriminate].
    injection H3 as <-. cbn in H4.
    destruct (format_2f mem) as [s4|e] eqn:Fm; simpl in H4; [|discriminate].
    injection H4 as <-.
    exists id, st, alloc, gb, pct, mem, s1, s2, s3, s4. auto 10.
Qed.

(** What the highlighter returns on a row whose percentage cell is the
    two-decimal text of [f]. *)
Lemma highlight_by_value row f :
  getitem row "Free Storage Space (%)" = Ok (VStr (format_2f_float f)) ->
  (float_lt_int (B64.round2 f) 15 = true ->
     highlight_storage_percent row = Ok [""; ""; ""; ""; red; ""]) /\
  (int_le_float 15 (B64.round2 f) = true ->
   float_lt_int (B64.round2 f) 20 = true ->
     highlight_storage_percent row = Ok [""; ""; ""; ""; orange; ""]) /\
  (int_le_float 20 (B64.round2 f) = true ->
     highlight_storage_percent row = Ok [""; ""; ""; ""; ""; ""]) /\
  (format_2f_float f = "14.99" ->
     highlight_storage_percent row = Ok [""; ""; ""; ""; red; ""]) /\
  (format_2f_float f = "15.00" ->
     highlight_storage_percent row = Ok [""; ""; ""; ""; orange; ""]) /\
  (format_2f_float f = "20.00" ->
     highlight_storage_percent row = Ok [""; ""; ""; ""; ""; ""]).
Proof.
  intros Hg. pose proof (float_of_format f) as Hp.
  repeat split.
  - intros H15. now rewrite (highlight_of_cell _ _ _ Hg Hp), H15.
  - intros H15 H20. apply at_least_not_below in H15.
    now rewrite (highlight_of_cell _ _ _ Hg Hp), H15, H20.
  - intros H20. rewrite (highlight_of_cell _ _ _ Hg Hp).
    rewrite (at_least_20_not_below_15 _ H20).
    apply at_least_not_below in H20. now rewrite H20.
  - intros E. rewrite E in Hg.
    rewrite (highlight_of_cell _ _ _ Hg parse_14_99). vm_compute. reflexivity.
  - intros E. rewrite E in Hg.
    rewrite (highlight_of_cell _ _ _ Hg parse_15_00). vm_compute. reflexivity.
  - intros E. rewrite E in Hg.
    rewrite (highlight_of_cell _ _ _ Hg parse_20_00). vm_compute. reflexivity.
Qed.

(** C2.  Every row of the table rendered from the collector's records
    carries its percentage as text with two decimals; the highlighter reads
    that text back and compares the value [p] with strict inequalities:
    [p < 15] gives a red background on the percentage cell, [15 <= p < 20]
    an orange one, [20 <= p] none, and the other five cells are never
    styled.  In particular a row showing 14.99 is red, one showing 15.00 is
    orange and one showing 20.00 is not highlighted. *)
Theorem highlight_thresholds w t rows t' fdf st :
  get_rds_metrics_report w t = (Ok rows, t') ->
  rows <> [] ->
  format_numeric (pd_DataFrame rows) = Ok fdf ->
  style_apply highlight_storage_percent fdf = Ok st ->
  Forall2 (fun row styles =>
             exists pct f,
               assoc "Free Storage Space (%)" row = Some (VNum pct) /\
               to_float pct = Ok f /\
               float_of_string (format_2f_float f) = Ok (B64.round2 f) /\
               (float_lt_int (B64.round2 f) 15 = true ->
                  styles = [""; ""; ""; ""; red; ""]) /\
               (int_le_float 15 (B64.round2 f) = true ->
                float_lt_int (B64.round2 f) 20 = true ->
                  styles = [""; ""; ""; ""; orange; ""]) /\
               (int_le_float 20 (B64.round2 f) = true ->
                  styles = [""; ""; ""; ""; ""; ""]) /\
               (format_2f_float f = "14.99" -> styles = [""; ""; ""; ""; red; ""]) /\
               (format_2f_float f = "15.00" -> styles = [""; ""; ""; ""; orange; ""]) /\
               (format_2f_float f = "20.00" -> styles = [""; ""; ""; ""; ""; ""]))
    rows (css st).
Proof.
  intros Hrun Hne Hfmt Hsty.
  pose proof (collected_rows_shape _ _ _ _ Hrun) as Hshape.
  rewrite (pd_DataFrame_report rows Hshape Hne) in Hfmt.
  apply (format_numeric_report rows fdf Hshape) in Hfmt as [Hcols Hlines].
  apply style_apply_inv in Hsty as [_ Hcss]. rewrite Hcols in Hcss.
  pose proof (Forall2_compose _ _ _ _ _ Hlines Hcss) as F.
  eapply Forall2_impl; [exact F|]. clear.
  intros row styles (line & (id & st & alloc & gb & pct & mem & s1 & s2 & s3 & s4
                             & -> & _ & _ & Hp & _ & ->) & Hh).
  apply format_2f_inv in Hp as (f & Hf & ->).
  exists pct, f. split; [reflexivity|]. split; [exact Hf|].
  split; [apply float_of_format|].
  assert (Hg : getitem (combine report_columns
                          [VStr id; VStr st; VStr s1; VStr s2;
                           VStr (format_2f_float f); VStr s4])
                 "Free Storage Space (%)" = Ok (VStr (format_2f_float f)))
    by reflexivity.
  destruct (highlight_by_value _ f Hg) as (R & O & N & R' & O' & N').
  repeat split.
  - intros H. rewrite (R H) in Hh. now injection Hh.
  - intros H H'. rewrite (O H H') in Hh. now injection Hh.
  - intros H. rewrite (N H) in Hh. now injection Hh.
  - intros H. rewrite (R' H) in Hh. now injection Hh.
  - intros H. rewrite (O' H) in Hh. now injection Hh.
  - intros H. rewrite (N' H) in Hh. now injection Hh.
Qed.

Lemma highlight_thresholds_witness :
  Forall2 (fun row styles =>
             exists pct f,
               assoc "Free Storage Space (%)" row = Some (VNum pct) /\
               to_float pct = Ok f /\
               float_of_string (format_2f_float f) = Ok (B64.round2 f) /\
               (float_lt_int (B64.round2 f) 15 = true ->
                  styles = [""; ""; ""; ""; red; ""]) /\
               (int_le_float 15 (B64.round2 f) = true ->
                float_lt_int (B64.round2 f) 20 = true ->
                  styles = [""; ""; ""; ""; orange; ""]) /\
               (int_le_float 20 (B64.round2 f) = true ->
                  styles = [""; ""; ""; ""; ""; ""]) /\
               (format_2f_float f = "14.99" -> styles = [""; ""; ""; ""; red; ""]) /\
               (format_2f_float f = "15.00" -> styles = [""; ""; ""; ""; orange; ""]) /\
               (format_2f_float f = "20.00" -> styles = [""; ""; ""; ""; ""; ""]))
    sample_rows (css sample_styler).
Proof.
  apply (highlight_thresholds sample_world [] sample_rows sample_calls
           (frame sample_styler) sample_styler).
  - vm_compute. reflexivity.
  - discriminate.
  - vm_compute. reflexivity.
  - vm_compute. reflexivity.
Defined.

(** ** The dispatcher *)

Lemma send_report_email_try_cases w df csv r t :
  (exists to fdf st html data mid,
     boto3_client w "ses" = Ok tt /\
     join_recipients r = Ok to /\
     format_numeric df = Ok fdf /\
     style_apply highlight_storage_percent fdf = Ok st /\
     render w st = Ok html /\
     as_string w (report_message w to html csv) = Ok data /\
     send_raw_email w "admin01@readywire.com" r data = Ok mid /\
     send_report_email_try w df csv r t =
       (Ok true,
        t ++ [ Boto3Client "ses"; ToHtml;
               SendRawEmail "admin01@readywire.com" r (report_message w to html csv);
               Log "INFO" ("Email sent successfully! Message ID: " +:+ mid) ]))
  \/
  (exists e evs,
     send_report_email_try w df csv r t = (Raise e, t ++ evs) /\
     Forall (sent_to w r csv) evs /\
     (boto3_client w "ses" = Raise e \/
      join_recipients r = Raise e \/
      format_numeric df = Raise e \/
      (exists fdf, format_numeric df = Ok fdf /\
                   style_apply highlight_storage_percent fdf = Raise e) \/
      (exists fdf st, format_numeric df = Ok fdf /\
                      style_apply highlight_storage_percent fdf = Ok st /\
                      render w st = Raise e) \/
      (exists to fdf st html,
         join_recipients r = Ok to /\
         format_numeric df = Ok fdf /\
         style_apply highlight_storage_percent fdf = Ok st /\
         render w st = Ok html /\
         as_string w (report_message w to html csv) = Raise e) \/
      (exists to fdf st html data,
         join_recipients r = Ok to /\
         format_numeric df = Ok fdf /\
         style_apply highlight_storage_percent fdf = Ok st /\
         render w st = Ok html /\
         as_string w (report_message w to html csv) = Ok data /\
         send_raw_email w "admin01@readywire.com" r data = Raise e))).
Proof.
  unfold send_report_email_try, to_html, log, bind, call, lift, ret.
  destruct (boto3_client w "ses") as [[]|e] eqn:E1.
  2:{ right. exists e, [Boto3Client "ses"]. repeat split; auto. repeat constructor. }
  destruct (join_recipients r) as [to|e] eqn:E2.
  2:{ right. exists e, [Boto3Client "ses"]. repeat split; auto. repeat constructor. }
  destruct (format_numeric df) as [fdf|e] eqn:E3.
  2:{ right. exists e, [Boto3Client "ses"]. repeat split; auto. repeat constructor. }
  destruct (style_apply highlight_storage_percent fdf) as [st|e] eqn:E4.
  2:{ right. exists e, [Boto3Client "ses"; ToHtml]. rewrite <- app_assoc.
      repeat split; [|eauto 8]. repeat constructor. }
  destruct (render w st) as [html|e] eqn:E5.
  2:{ right. exists e, [Boto3Client "ses"; ToHtml]. rewrite <- app_assoc.
      repeat split; [|eauto 12]. repeat constructor. }
  change (attach (attach _ _) _) with (report_message w to html csv).
  change (From (report_message w to html csv)) with "admin01@readywire.com".
  destruct (as_string w (report_message w to html csv)) as [data|e] eqn:E6.
  2:{ right. exists e, [Boto3Client "ses"; ToHtml]. rewrite <- app_assoc.
      repeat split; [|eauto 15]. repeat constructor. }
  destruct (send_raw_email w "admin01@readywire.com" r data) as [mid|e] eqn:E7.
  - left. exists to, fdf, st, html, data, mid. repeat split; auto.
    now rewrite <- !app_assoc.
  - right. exists e, [Boto3Client "ses"; ToHtml;
                      SendRawEmail "admin01@readywire.com" r (report_message w to html csv)].
    rewrite <- !app_assoc. repeat split; [|eauto 20].
    repeat constructor. simpl. eauto 10.
Qed.

Lemma send_report_email_run w df csv r t :
  exists b evs,
    send_report_email w df csv r t = (Ok b, t ++ evs) /\
    Forall (sent_to w r csv) evs.
Proof.
  unfold send_report_email, try_except.
  destruct (send_report_email_try_cases w df csv r t)
    as [(to & fdf & st & html & data & mid & _ & Hj & _ & _ & _ & _ & _ & ->)
       |(e & evs & -> & HF & _)].
  - eexists true, _. split; [reflexivity|]. repeat constructor. simpl. eauto 10.
  - unfold log, bind, call, ret. exists false, (evs ++ [Log "ERROR" ("Error sending email: " +:+ str_exn e)]).
    rewrite app_assoc. split; [reflexivity|].
    apply Forall_app. split; [exact HF|]. repeat constructor.
Qed.

(** C8.  [send_report_email] always returns a boolean and never raises: it
    returns [True] exactly when the SES client is created, the message is
    composed (recipients joined, columns formatted, table styled and
    rendered, message written out as text) and SES accepts that text; when
    any of these steps raises, the error is logged and the result is
    [False]. *)
Theorem send_report_email_total w df csv r t :
  exists b t',
    send_report_email w df csv r t = (Ok b, t') /\
    match send_report_email_try w df csv r t with
    | (Ok _, t1) => b = true /\ t' = t1
    | (Raise e, t1) =>
        b = false /\ t' = t1 ++ [Log "ERROR" ("Error sending email: " +:+ str_exn e)]
    end /\
    (b = true <->
     exists to fdf st html data mid,
       boto3_client w "ses" = Ok tt /\
       join_recipients r = Ok to /\
       format_numeric df = Ok fdf /\
       style_apply highlight_storage_percent fdf = Ok st /\
       render w st = Ok html /\
       as_string w (report_message w to html csv) = Ok data /\
       send_raw_email w "admin01@readywire.com" r data = Ok mid).
Proof.
  unfold send_report_email, try_except.
  destruct (send_report_email_try_cases w df csv r t)
    as [(to & fdf & st & html & data & mid & H1 & H2 & H3 & H4 & H5 & H6 & H7 & ->)
       |(e & evs & -> & HF & Hwhy)].
  - eexists true, _. repeat split; eauto 14.
  - unfold log, bind, call, ret. eexists false, _. repeat split; try discriminate.
    intros (to & fdf & st & html & data & mid & H1 & H2 & H3 & H4 & H5 & H6 & H7).
    destruct Hwhy as [H|[H|[H|[(fdf' & Hf & H)|[(fdf' & st' & Hf & Hs & H)
                             |[(to' & fdf' & st' & html' & Hj & Hf & Hs & Hh & H)
                              |(to' & fdf' & st' & html' & data' & Hj & Hf & Hs & Hh
                                & Ha & H)]]]]]];
      congruence.
Qed.

(** A recipient that smuggles a header line is refused when the message is
    written out: SES is not called and the result is [False]. *)
Example embedded_header_not_sent :
  send_report_email sample_world (pd_DataFrame sample_rows)
    (to_csv (pd_DataFrame sample_rows))
    (JArr [JStr ("a@x.com" +:+ String "010"%char "Bcc: evil@x.com")]) []
  = (Ok false,
     [ Boto3Client "ses"; ToHtml;
       Log "ERROR" "Error sending email: header value appears to contain an embedded header" ]).
Proof. vm_compute. reflexivity. Qed.

(** ** The handler *)

Lemma resolve_recipients_eq w event :
  resolve_recipients w event = Ok (expected_recipients w event).
Proof.
  unfold resolve_recipients, expected_recipients, truthy, contains, event_getitem.
  destruct event as [ev|]; simpl; [|reflexivity].
  destruct (ev !! "recipients") as [v|] eqn:E.
  - assert (Hne : ev ≠ ∅) by (intros ->; now rewrite lookup_empty in E).
    rewrite (bool_decide_eq_true_2 _ Hne).
    rewrite bool_decide_eq_true_2 by eauto. reflexivity.
  - rewrite (bool_decide_eq_false_2 (is_Some None)) by (intros [? ?]; discriminate).
    now rewrite andb_false_r.
Qed.

Lemma expected_recipients_present w ev v :
  ev !! "recipients" = Some v -> expected_recipients w (Some ev) = v.
Proof. intros H. unfold expected_recipients. simpl. now rewrite H. Qed.

Lemma expected_recipients_absent w event :
  (event = None \/ exists ev, event = Some ev /\ ev !! "recipients" = None) ->
  expected_recipients w event =
    JArr (map JStr
            (split_comma
               (default "saasadmin@readywire.com" (environ w !! "EMAIL_RECIPIENTS")))).
Proof.
  intros [->|(ev & -> & H)]; unfold expected_recipients; simpl; [reflexivity|].
  now rewrite H.
Qed.

Lemma instance_row_emits w end_time i :
  emits (fun e => dispatch_event e = false) (instance_row w end_time i).
Proof.
  unfold instance_row.
  repeat (first [ apply emits_ret | apply emits_lift
                | apply emits_call; reflexivity
                | apply emits_bind; [|intros ?] ]).
Qed.

Lemma get_rds_metrics_report_emits w :
  emits (fun e => dispatch_event e = false) (get_rds_metrics_report w).
Proof.
  unfold get_rds_metrics_report.
  repeat (first [ apply emits_call; reflexivity
                | apply emits_for_each; intros ?; apply instance_row_emits
                | apply emits_bind; [|intros ?] ]).
Qed.

Lemma lambda_handler_raise w event t e t1 :
  get_rds_metrics_report w t = (Raise e, t1) ->
  lambda_handler w event t =
    (Ok {| statusCode := 500; body := "Error in lambda_handler: " +:+ str_exn e |},
     t1 ++ [Log "ERROR" ("Error in lambda_handler: " +:+ str_exn e)]).
Proof.
  intros H. unfold lambda_handler, try_except, bind, lift.
  rewrite resolve_recipients_eq, H. reflexivity.
Qed.

Lemma lambda_handler_empty w event t t1 :
  get_rds_metrics_report w t = (Ok [], t1) ->
  lambda_handler w event t =
    (Ok {| statusCode := 200; body := no_content_body |},
     t1 ++ [Log "WARNING" no_content_body]).
Proof.
  intros H. unfold lambda_handler, try_except, bind, lift.
  rewrite resolve_recipients_eq, H. reflexivity.
Qed.

Lemma lambda_handler_report w event t row rows t1 b t2 :
  get_rds_metrics_report w t = (Ok (row :: rows), t1) ->
  send_report_email w (pd_DataFrame (row :: rows))
    (to_csv (pd_DataFrame (row :: rows))) (expected_recipients w event) t1
  = (Ok b, t2) ->
  lambda_handler w event t =
    (Ok {| statusCode := 200; body := report_body b |}, t2).
Proof.
  intros H Hs. unfold lambda_handler, try_except, bind, lift.
  rewrite resolve_recipients_eq, H. cbv zeta. rewrite Hs. reflexivity.
Qed.

(** C4.  When the collector returns no instance, the handler answers 200
    with the message that no instances were found; apart from the calls of
    the collector it only logs a warning: no SES client is created, nothing
    is rendered and no mail is submitted. *)
Theorem empty_inventory_short_circuits w event t t1 :
  get_rds_metrics_report w t = (Ok [], t1) ->
  lambda_handler w event t =
    (Ok {| statusCode := 200; body := "No RDS instances found in the account." |},
     t1 ++ [Log "WARNING" "No RDS instances found in the account."]) /\
  exists evs,
    t1 ++ [Log "WARNING" "No RDS instances found in the account."] = t ++ evs /\
    Forall (fun e => dispatch_event e = false) evs.
Proof.
  intros H. split; [now apply lambda_handler_empty|].
  destruct (get_rds_metrics_report_emits w t) as (evs & E & F).
  rewrite H in E. simpl in E. subst t1.
  exists (evs ++ [Log "WARNING" "No RDS instances found in the account."]).
  rewrite app_assoc. split; [reflexivity|].
  apply Forall_app. split; [exact F|]. now repeat constructor.
Qed.

Lemma empty_inventory_short_circuits_witness :
  lambda_handler empty_world None [] =
    (Ok {| statusCode := 200; body := "No RDS instances found in the account." |},
     [Boto3Client "rds"; Boto3Client "cloudwatch"; DescribeDBInstances]
     ++ [Log "WARNING" "No RDS instances found in the account."]) /\
  exists evs,
    [Boto3Client "rds"; Boto3Client "cloudwatch"; DescribeDBInstances]
    ++ [Log "WARNING" "No RDS instances found in the account."] = [] ++ evs /\
    Forall (fun e => dispatch_event e = false) evs.
Proof.
  apply (empty_inventory_short_circuits empty_world None []).
  vm_compute. reflexivity.
Defined.

(** C7.  When the collector returns at least one instance, the handler
    answers 200 whatever [send_report_email] returned; the boolean only
    selects the wording of the body. *)
Theorem status_200_whatever_dispatch w event t row rows t1 :
  get_rds_metrics_report w t = (Ok (row :: rows), t1) ->
  exists email_sent t2,
    send_report_email w (pd_DataFrame (row :: rows))
      (to_csv (pd_DataFrame (row :: rows))) (expected_recipients w event) t1
    = (Ok email_sent, t2) /\
    lambda_handler w event t =
      (Ok {| statusCode := 200;
             body := "RDS metrics report generated and "
                     +:+ (if email_sent then "email sent successfully"
                          else "failed to send email")
                     +:+ "." |}, t2).
Proof.
  intros H.
  destruct (send_report_email_run w (pd_DataFrame (row :: rows))
              (to_csv (pd_DataFrame (row :: rows))) (expected_recipients w event) t1)
    as (b & evs & Hs & _).
  exists b, (t1 ++ evs). split; [exact Hs|].
  now apply (lambda_handler_report _ _ _ _ _ _ _ _ H Hs).
Qed.

Lemma status_200_whatever_dispatch_witness :
  exists email_sent t2,
    send_report_email sample_world (pd_DataFrame sample_rows)
      (to_csv (pd_DataFrame sample_rows)) (expected_recipients sample_world None)
      sample_calls
    = (Ok email_sent, t2) /\
    lambda_handler sample_world None [] =
      (Ok {| statusCode := 200;
             body := "RDS metrics report generated and "
                     +:+ (if email_sent then "email sent successfully"
                          else "failed to send email")
                     +:+ "." |}, t2).
Proof.
  apply (status_200_whatever_dispatch sample_world None []
           (report_dict "db-1" "available" 100
              (Float (B64.of_Z 12)) (Float (B64.of_Z 12))
              (Float (B64.of_decimal false 15 1)))
           [report_dict "db-2" "creating" 0 (Int 0) (Int 0) (Int 0)]
           sample_calls).
  vm_compute. reflexivity.
Defined.

(** SES rejecting the message changes the body, not the status. *)
Example rejected_mail_still_200 :
  fst (lambda_handler rejecting_world None []) =
    Ok {| statusCode := 200;
          body := "RDS metrics report generated and failed to send email." |} /\
  fst (lambda_handler sample_world None []) =
    Ok {| statusCode := 200;
          body := "RDS metrics report generated and email sent successfully." |}.
Proof. vm_compute. split; reflexivity. Qed.

(** C6.  The recipients are resolved without error to the value of the
    payload's [recipients] key when the payload has one, and to the
    comma-separated default of the environment otherwise; every message the
    handler submits to SES has exactly that value as its destinations and as
    the source of its [To] header. *)
Theorem recipients_override w event t :
  resolve_recipients w event = Ok (expected_recipients w event) /\
  exists resp evs,
    lambda_handler w event t = (Ok resp, t ++ evs) /\
    Forall (fun e =>
              match e with
              | SendRawEmail _ destinations message =>
                  destinations = expected_recipients w event /\
                  join_recipients (expected_recipients w event) = Ok (To message)
              | _ => True
              end) evs.
Proof.
  split; [apply resolve_recipients_eq|].
  destruct (get_rds_metrics_report_emits w t) as (evs & E & F).
  destruct (get_rds_metrics_report w t) as [[[|row rows]|e] t1] eqn:Hrun;
    simpl in E; subst t1.
  - rewrite (lambda_handler_empty _ event _ _ Hrun).
    eexists _, _. rewrite <- app_assoc. split; [reflexivity|].
    apply Forall_app. split; [|now repeat constructor].
    eapply Forall_impl; [exact F|]. intros [] He; try exact I. discriminate.
  - destruct (send_report_email_run w (pd_DataFrame (row :: rows))
                (to_csv (pd_DataFrame (row :: rows))) (expected_recipients w event)
                (t ++ evs)) as (b & evs' & Hs & F').
    rewrite (lambda_handler_report _ _ _ _ _ _ _ _ Hrun Hs).
    eexists _, _. rewrite <- app_assoc. split; [reflexivity|].
    apply Forall_app. split.
    + eapply Forall_impl; [exact F|]. intros [] He; try exact I. discriminate.
    + eapply Forall_impl; [exact F'|]. intros [] He; try exact I.
      destruct He as (_ & -> & to & html & Hj & ->). split; [reflexivity|exact Hj].
  - rewrite (lambda_handler_raise _ event _ _ _ Hrun).
    eexists _, _. rewrite <- app_assoc. split; [reflexivity|].
    apply Forall_app. split; [|now repeat constructor].
    eapply Forall_impl; [exact F|]. intros [] He; try exact I. discriminate.
Qed.

(** A payload with a [recipients] key replaces the configured default: the
    message goes to that list alone. *)
Example payload_overrides_environment :
  resolve_recipients configured_world None
    = Ok (JArr [JStr "ops@example.com"; JStr "dba@example.com"]) /\
  resolve_recipients configured_world
    (Some {[ "recipients" := JArr [JStr "a@x.com"] ]})
    = Ok (JArr [JStr "a@x.com"]) /\
  exists message,
    snd (lambda_handler configured_world
           (Some {[ "recipients" := JArr [JStr "a@x.com"] ]}) [])
    = sample_calls
      ++ [ Boto3Client "ses"; ToHtml;
           SendRawEmail "admin01@readywire.com" (JArr [JStr "a@x.com"]) message;
           Log "INFO" "Email sent successfully! Message ID: 0100018b-sample" ] /\
    To message = "a@x.com".
Proof.
  split; [vm_compute; reflexivity|]. split; [vm_compute; reflexivity|].
  eexists. split; [vm_compute; reflexivity|]. reflexivity.
Qed.

(** C10.  With [EMAIL_RECIPIENTS] unset and no [recipients] key in the
    payload, the recipients are the one hard-coded address. *)
Theorem hardcoded_default_recipient w event :
  environ w !! "EMAIL_RECIPIENTS" = None ->
  (event = None \/ exists ev, event = Some ev /\ ev !! "recipients" = None) ->
  resolve_recipients w event = Ok (JArr [JStr "saasadmin@readywire.com"]).
Proof.
  intros Henv Hev. rewrite resolve_recipients_eq.
  rewrite (expected_recipients_absent _ _ Hev), Henv. reflexivity.
Qed.

Lemma hardcoded_default_recipient_witness :
  resolve_recipients sample_world (Some {[ "dry_run" := JBool true ]})
  = Ok (JArr [JStr "saasadmin@readywire.com"]).
Proof.
  apply hardcoded_default_recipient.
  - reflexivity.
  - right. exists {[ "dry_run" := JBool true ]}. split; reflexivity.
Defined.

(** C5 as stated does not hold: the first column of the attachment is named
    after the key of the report rows, [RDS Instance Name]. *)
Lemma csv_header_counterexample :
  get_rds_metrics_report sample_world [] = (Ok sample_rows, sample_calls) /\
  sample_rows <> [] /\
  head (to_csv (pd_DataFrame sample_rows)) <> Some (map VStr described_header).
Proof.
  split; [vm_compute; reflexivity|]. split; [discriminate|].
  vm_compute. discriminate.
Qed.

(** C5, amended.  For a non-empty instance list the attachment is the
    header row RDS Instance Name, Instance State, Allocated Space (GB),
    Free Storage Space (GB), Free Storage Space (%), Freeable Memory (GB), in
    that order, followed by one row per instance, in the order of the
    listing, each made of the six values of that instance's record. *)
Theorem csv_header_and_rows w t rows t' :
  get_rds_metrics_report w t = (Ok rows, t') ->
  rows <> [] ->
  exists instances,
    describe_db_instances w = Ok instances /\
    to_csv (pd_DataFrame rows) =
      map VStr [ "RDS Instance Name"; "Instance State"; "Allocated Space (GB)";
                 "Free Storage Space (GB)"; "Free Storage Space (%)";
                 "Freeable Memory (GB)" ]
      :: map (map snd) rows /\
    Forall2 (fun i line =>
               exists gb pct mem,
                 line = [ VStr (DBInstanceIdentifier i); VStr (DBInstanceStatus i);
                          VNum (Int (AllocatedStorage i));
                          VNum gb; VNum pct; VNum mem ])
      instances (map (map snd) rows).
Proof.
  intros Hrun Hne.
  pose proof (collected_rows_shape _ _ _ _ Hrun) as Hshape.
  apply get_rds_metrics_report_inv in Hrun as (instances & Hd & HF).
  exists instances. split; [exact Hd|]. split.
  - unfold to_csv. now rewrite (pd_DataFrame_report rows Hshape Hne).
  - clear Hne Hshape Hd. induction HF as [|i row insts rs Hrow _ IH]; simpl; constructor; auto.
    destruct Hrow as (fs & fm & gb & pct & mem & _ & _ & _ & _ & _ & ->).
    exists gb, pct, mem. reflexivity.
Qed.

Lemma csv_header_and_rows_witness :
  exists instances,
    describe_db_instances sample_world = Ok instances /\
    to_csv (pd_DataFrame sample_rows) =
      map VStr [ "RDS Instance Name"; "Instance State"; "Allocated Space (GB)";
                 "Free Storage Space (GB)"; "Free Storage Space (%)";
                 "Freeable Memory (GB)" ]
      :: map (map snd) sample_rows /\
    Forall2 (fun i line =>
               exists gb pct mem,
                 line = [ VStr (DBInstanceIdentifier i); VStr (DBInstanceStatus i);
                          VNum (Int (AllocatedStorage i));
                          VNum gb; VNum pct; VNum mem ])
      instances (map (map snd) sample_rows).
Proof.
  apply (csv_header_and_rows sample_world [] sample_rows sample_calls).
  - vm_compute. reflexivity.
  - discriminate.
Defined.

(** ** The worked example of the specification *)

(** One instance [db-1] with 100 GB allocated and 12 GB free: the derived
    percentage is 12.0 and its cell is red. *)
Example db1_is_red :
  (g <- latest_gb db1_storage ;; free_storage_percent g 100)%result
    = Ok (Float (B64.of_Z 12)) /\
  format_2f (Float (B64.of_Z 12)) = Ok "12.00" /\
  highlight_storage_percent db1_formatted_row = Ok [""; ""; ""; ""; red; ""].
Proof. vm_compute. repeat split; reflexivity. Qed.

(** The whole pipeline on the sample account: the formatted frame and the
    styles handed to the renderer. *)
Example sample_styles :
  (fdf <- format_numeric (pd_DataFrame sample_rows) ;;
   style_apply highlight_storage_percent fdf)%result = Ok sample_styler.
Proof. vm_compute. reflexivity. Qed.

(** * Further properties of the handler *)

(** ** Conversion of an int to a float *)

Lemma digits2_pos_iter p k :
  digits2_pos (Pos.iter xO p k) = (digits2_pos p + k)%positive.
Proof.
  induction k as [|k IH] using Pos.peano_ind.
  - simpl. now rewrite Pos.add_1_r.
  - rewrite Pos.iter_succ. simpl. now rewrite IH, Pos.add_succ_r.
Qed.

Lemma digits2_pos_size p : digits2_pos p = Pos.size p.
Proof. induction p; simpl; congruence. Qed.

Lemma digits2_pos_bound p :
  Z.pos p < 2 ^ 53 -> Z.pos (digits2_pos p) <= 53.
Proof.
  intros H. rewrite digits2_pos_size.
  pose proof (Pos.size_le p) as Hs.
  assert (Hz : 2 ^ Z.pos (Pos.size p) <= 2 * Z.pos p).
  { change (2 * Z.pos p) with (Z.pos p~0). rewrite <- Pos2Z.inj_pow. exact Hs. }
  destruct (Z_lt_le_dec 53 (Z.pos (Pos.size p))) as [Hgt|]; [|assumption].
  assert (2 ^ 54 <= 2 ^ Z.pos (Pos.size p)) by (apply Z.pow_le_mono_r; lia).
  lia.
Qed.

Lemma binary_round_aux_exact s m e :
  Z.pos (digits2_pos m) = 53 -> -1074 <= e <= 971 ->
  binary_round_aux B64.prec B64.emax s (Z.pos m) e loc_Exact = S754_finite s m e.
Proof.
  intros Hd He. unfold binary_round_aux.
  assert (Hshr : forall l, l = loc_Exact ->
            shr_fexp B64.prec B64.emax (Z.pos m) e l
            = ({| shr_m := Z.pos m; shr_r := false; shr_s := false |}, e)).
  { intros l ->. unfold shr_fexp, shr, fexp, emin, Zdigits2, B64.prec, B64.emax.
    rewrite Hd. replace (Z.max (53 + e - 53) (3 - 1024 - 53) - e) with 0 by lia.
    reflexivity. }
  rewrite (Hshr _ eq_refl). cbn [shr_m loc_of_shr_record round_nearest_even].
  rewrite (Hshr _ eq_refl). cbn [shr_m].
  unfold B64.emax, B64.prec.
  destruct (Z.leb_spec e (1024 - 53)); [reflexivity|lia].
Qed.

Lemma binary_round_small s p :
  Z.pos p < 2 ^ 53 ->
  exists m e, binary_round B64.prec B64.emax s p 0 = S754_finite s m e.
Proof.
  intros Hp. pose proof (digits2_pos_bound p Hp) as Hd.
  unfold binary_round, shl_align, fexp, emin, B64.prec, B64.emax.
  replace (Z.max (Z.pos (digits2_pos p) + 0 - 53) (3 - 1024 - 53) - 0)
    with (Z.pos (digits2_pos p) - 53) by lia.
  replace (Z.max (Z.pos (digits2_pos p) + 0 - 53) (3 - 1024 - 53))
    with (Z.pos (digits2_pos p) - 53) by lia.
  destruct (Z.pos (digits2_pos p) - 53) as [|k|k] eqn:Ek; try lia.
  - eexists _, _. apply binary_round_aux_exact; lia.
  - eexists _, _. apply binary_round_aux_exact; [|lia].
    rewrite digits2_pos_iter. lia.
Qed.

Lemma float_of_int_small z :
  - 2 ^ 53 < z < 2 ^ 53 ->
  exists x, float_of_int z = Ok x /\ B64.is_inf x = false /\
            (z <> 0 -> B64.is_zero x = false).
Proof.
  intros Hz. unfold float_of_int, B64.of_Z, binary_normalize.
  destruct z as [|p|p].
  - eexists. repeat split. congruence.
  - destruct (binary_round_small false p) as (m & e & ->); [lia|].
    eexists. repeat split.
  - destruct (binary_round_small true p) as (m & e & ->); [lia|].
    eexists. repeat split.
Qed.

(** ** The selection of the latest sample *)

Lemma NoDup_map_inj {A B} (f : A -> B) l a b :
  List.NoDup (map f l) -> In a l -> In b l -> f a = f b -> a = b.
Proof.
  induction l as [|x l IH]; simpl; [tauto|].
  intros Hnd Ha Hb Hf. apply NoDup_cons_iff in Hnd as [Hx Hnd].
  destruct Ha as [<-|Ha], Hb as [<-|Hb]; auto.
  - exfalso. apply Hx. rewrite Hf. now apply in_map.
  - exfalso. apply Hx. rewrite <- Hf. now apply in_map.
Qed.

(** X4.  CloudWatch returns datapoints in no particular order; as long as
    their timestamps are distinct, the reported GB figure does not depend on
    that order. *)
Theorem latest_gb_order_independent dps dps' :
  Permutation dps dps' ->
  List.NoDup (map Timestamp dps) ->
  latest_gb dps = latest_gb dps'.
Proof.
  intros Hperm Hnd.
  destruct (max_by Timestamp dps) as [d|] eqn:E.
  - destruct (max_by Timestamp dps') as [d'|] eqn:E'.
    + rewrite (latest_gb_some _ _ E), (latest_gb_some _ _ E').
      apply max_by_latest in E as [Hin Hmax].
      apply max_by_latest in E' as [Hin' Hmax'].
      assert (Hd' : In d' dps) by (eapply Permutation_in; [symmetry; exact Hperm|exact Hin']).
      assert (Hd : In d dps') by (eapply Permutation_in; [exact Hperm|exact Hin]).
      assert (d = d') as <-.
      { apply (NoDup_map_inj Timestamp dps); auto.
        specialize (Hmax _ Hd'). specialize (Hmax' _ Hd). lia. }
      reflexivity.
    + apply max_by_nil_iff in E'. subst.
      apply Permutation_nil_r in Hperm. subst. discriminate.
  - apply max_by_nil_iff in E. subst.
    apply Permutation_nil in Hperm. now subst.
Qed.

Lemma latest_gb_order_independent_witness :
  latest_gb db1_storage = latest_gb (rev db1_storage).
Proof.
  apply latest_gb_order_independent.
  - apply Permutation_rev.
  - repeat constructor; simpl; intuition discriminate.
Defined.

(** ** The default recipients *)

Lemma split_comma_cons s : exists h t, split_comma s = h :: t.
Proof.
  induction s as [|c r (h & t & IH)]; simpl; [eauto|].
  destruct (Ascii.eqb c ","); [eauto|]. rewrite IH. eauto.
Qed.

(** X6.  Splitting the configured string at its commas loses nothing:
    joining the pieces with commas gives the string back; there is one piece
    more than there are commas (so never none, and an empty string gives one
    empty address), and no piece contains a comma. *)
Theorem split_comma_join s :
  String.concat "," (split_comma s) = s /\
  length (split_comma s) = S (count_commas s) /\
  Forall (fun piece => has_comma piece = false) (split_comma s).
Proof.
  induction s as [|c r (IHj & IHl & IHf)]; simpl.
  - repeat split. repeat constructor.
  - destruct (Ascii.eqb_spec c ","%char) as [->|Hc].
    + destruct (split_comma_cons r) as (h & t & E). rewrite E in *.
      simpl in *. repeat split.
      * now rewrite IHj.
      * now rewrite IHl.
      * constructor; [reflexivity|exact IHf].
    + destruct (split_comma_cons r) as (h & t & E). rewrite E in *.
      simpl in *. repeat split.
      * destruct t; simpl in *; now rewrite <- IHj.
      * exact IHl.
      * inversion IHf; subst. constructor; [|assumption].
        simpl. apply Ascii.eqb_neq in Hc. now rewrite Hc.
Qed.

(** ** The collector, continued *)

Lemma instance_row_calls w end_time i :
  emits (collector_call end_time) (instance_row w end_time i).
Proof.
  unfold instance_row.
  repeat (first [ apply emits_ret | apply emits_lift
                | apply emits_call; simpl; auto
                | apply emits_bind; [|intros ?] ]).
Qed.

(** X12.  Whatever the services answer, the collector only creates its two
    clients, lists the instances and requests the two metrics, every request
    over the same window, the hour before the one [end_time] read at the
    start, at a period of 300 seconds; it neither logs nor touches SES. *)
Theorem collector_calls_fixed_window w t :
  exists evs,
    snd (get_rds_metrics_report w t) = t ++ evs /\
    Forall (collector_call (utcnow w)) evs.
Proof.
  revert t. change (emits (collector_call (utcnow w)) (get_rds_metrics_report w)).
  unfold get_rds_metrics_report.
  repeat (first [ apply emits_call; simpl; auto
                | apply emits_for_each; intros ?; apply instance_row_calls
                | apply emits_bind; [|intros ?] ]).
Qed.

(** X2.  The records follow the listing: one record per listed instance, in
    the order of the listing, with the identifier, the state and the
    allocated storage copied unchanged. *)
Theorem collector_rows_follow_listing w t rows t' :
  get_rds_metrics_report w t = (Ok rows, t') ->
  exists instances,
    describe_db_instances w = Ok instances /\
    length rows = length instances /\
    map (assoc "RDS Instance Name") rows
      = map (fun i => Some (VStr (DBInstanceIdentifier i))) instances /\
    map (assoc "Instance State") rows
      = map (fun i => Some (VStr (DBInstanceStatus i))) instances /\
    map (assoc "Allocated Space (GB)") rows
      = map (fun i => Some (VNum (Int (AllocatedStorage i)))) instances.
Proof.
  intros H. apply get_rds_metrics_report_inv in H as (instances & Hd & HF).
  exists instances. split; [exact Hd|]. clear Hd.
  induction HF as [|i row instances rows Hrow _ IH]; simpl.
  - auto.
  - destruct IH as (IHl & IHi & IHs & IHa).
    destruct Hrow as (fs & fm & gb & pct & mem & _ & _ & _ & _ & _ & ->).
    rewrite IHl, IHi, IHs, IHa. auto.
Qed.

Lemma collector_rows_follow_listing_witness :
  exists instances,
    describe_db_instances sample_world = Ok instances /\
    length sample_rows = length instances /\
    map (assoc "RDS Instance Name") sample_rows
      = map (fun i => Some (VStr (DBInstanceIdentifier i))) instances /\
    map (assoc "Instance State") sample_rows
      = map (fun i => Some (VStr (DBInstanceStatus i))) instances /\
    map (assoc "Allocated Space (GB)") sample_rows
      = map (fun i => Some (VNum (Int (AllocatedStorage i)))) instances.
Proof.
  apply (collector_rows_follow_listing sample_world [] sample_rows sample_calls).
  vm_compute. reflexivity.
Defined.

Lemma for_each_raise {A B} (f : A -> M B) (calls : A -> list event)
    pre bs a post e made :
  Forall2 (fun a b => forall t, f a t = (Ok b, t ++ calls a)) pre bs ->
  (forall t, f a t = (Raise e, t ++ made)) ->
  forall t, for_each f (pre ++ a :: post) t
            = (Raise e, t ++ concat (map calls pre) ++ made).
Proof.
  intros HF Ha. induction HF as [|x b pre bs Hx _ IH]; intros t; simpl.
  - unfold bind. now rewrite Ha.
  - unfold bind at 1. rewrite Hx. unfold bind at 1. rewrite IH.
    now rewrite <- !app_assoc.
Qed.

(** X3.  The collector does not retry and keeps no partial result: when a
    metric request of an instance raises, after the instances before it
    yielded their records, the collector raises that exception; the failed
    request is its last call, so the remaining metric of that instance and
    the instances after it are not queried. *)
Theorem collector_stops_at_first_failure w t pre i post rows e :
  boto3_client w "rds" = Ok tt ->
  boto3_client w "cloudwatch" = Ok tt ->
  describe_db_instances w = Ok (pre ++ i :: post) ->
  Forall2 (row_of w) pre rows ->
  storage_response w (utcnow w) i = Raise e \/
  (exists fs, storage_response w (utcnow w) i = Ok fs) /\
  memory_response w (utcnow w) i = Raise e ->
  exists k,
    (storage_response w (utcnow w) i = Raise e -> k = 1%nat) /\
    (memory_response w (utcnow w) i = Raise e ->
     storage_response w (utcnow w) i <> Raise e -> k = 2%nat) /\
    get_rds_metrics_report w t =
      (Raise e,
       t ++ [Boto3Client "rds"; Boto3Client "cloudwatch"; DescribeDBInstances]
         ++ concat (map (metric_calls (utcnow w)) pre)
         ++ firstn k (metric_calls (utcnow w) i)).
Proof.
  intros Hr Hc Hd HF Hfail.
  assert (Hpre : Forall2 (fun a b => forall t0,
                    instance_row w (utcnow w) a t0
                    = (Ok b, t0 ++ metric_calls (utcnow w) a)) pre rows).
  { eapply Forall2_impl; [exact HF|].
    intros a row (fs & fm & gb & pct & mem & Hs & Hm & Hg & Hp & Hf & ->) t0.
    rewrite (instance_row_eq _ _ _ _ _ _ Hs Hm), Hg. simpl. rewrite Hp. simpl.
    now rewrite Hf. }
  assert (Hrun : forall made,
            (forall t0, instance_row w (utcnow w) i t0 = (Raise e, t0 ++ made)) ->
            get_rds_metrics_report w t =
              (Raise e,
               t ++ [Boto3Client "rds"; Boto3Client "cloudwatch"; DescribeDBInstances]
                 ++ concat (map (metric_calls (utcnow w)) pre) ++ made)).
  { intros made Hi. unfold get_rds_metrics_report, bind at 1, call at 1.
    rewrite Hr. unfold bind at 1, call at 1. rewrite Hc.
    unfold bind at 1, call at 1. rewrite Hd.
    rewrite (for_each_raise _ (metric_calls (utcnow w)) pre rows i post e made Hpre Hi).
    now rewrite <- !app_assoc. }
  destruct Hfail as [Hs|[(fs & Hs) Hm]].
  - exists 1%nat. split; [auto|]. split; [congruence|].
    apply Hrun. intros t0. unfold instance_row, bind, call.
    fold (storage_response w (utcnow w) i). now rewrite Hs.
  - exists 2%nat. split; [congruence|]. split; [auto|].
    apply Hrun. intros t0. unfold instance_row, bind, call.
    fold (storage_response w (utcnow w) i). fold (memory_response w (utcnow w) i).
    rewrite Hs, Hm. now rewrite <- app_assoc.
Qed.

Lemma collector_stops_at_first_failure_witness :
  exists k,
    (storage_response throttled_world 1700000000
       {| DBInstanceIdentifier := "db-2"; AllocatedStorage := 0;
          DBInstanceStatus := "creating" |}
     = Raise (Exn "ClientError" "Throttling") -> k = 1%nat) /\
    (memory_response throttled_world 1700000000
       {| DBInstanceIdentifier := "db-2"; AllocatedStorage := 0;
          DBInstanceStatus := "creating" |}
     = Raise (Exn "ClientError" "Throttling") ->
     storage_response throttled_world 1700000000
       {| DBInstanceIdentifier := "db-2"; AllocatedStorage := 0;
          DBInstanceStatus := "creating" |}
     <> Raise (Exn "ClientError" "Throttling") -> k = 2%nat) /\
    get_rds_metrics_report throttled_world [] =
      (Raise (Exn "ClientError" "Throttling"),
       [] ++ [Boto3Client "rds"; Boto3Client "cloudwatch"; DescribeDBInstances]
          ++ concat (map (metric_calls 1700000000) [db1])
          ++ firstn k (metric_calls 1700000000
                         {| DBInstanceIdentifier := "db-2"; AllocatedStorage := 0;
                            DBInstanceStatus := "creating" |})).
Proof.
  apply (collector_stops_at_first_failure throttled_world [] [db1]
           {| DBInstanceIdentifier := "db-2"; AllocatedStorage := 0;
              DBInstanceStatus := "creating" |}
           [ {| DBInstanceIdentifier := "db-3"; AllocatedStorage := 50;
                DBInstanceStatus := "available" |} ]
           [ report_dict "db-1" "available" 100
               (Float (B64.of_Z 12)) (Float (B64.of_Z 12))
               (Float (B64.of_decimal false 15 1)) ]).
  - reflexivity.
  - reflexivity.
  - reflexivity.
  - constructor; [|constructor].
    exists db1_storage, db1_memory, (Float (B64.of_Z 12)), (Float (B64.of_Z 12)),
           (Float (B64.of_decimal false 15 1)).
    repeat split; vm_compute; reflexivity.
  - right. split; [exists []|]; reflexivity.
Defined.

Lemma float_of_int_100 : exists c, float_of_int 100 = Ok c.
Proof. eexists. vm_compute. reflexivity. Qed.

Lemma free_storage_percent_total dps gb alloc :
  latest_gb dps = Ok gb ->
  alloc < 2 ^ 53 ->
  exists pct, free_storage_percent gb alloc = Ok pct /\
              (pct = Int 0 \/ exists x, pct = Float x).
Proof.
  intros Hgb Ha. unfold free_storage_percent.
  destruct (Z.ltb_spec 0 alloc) as [Hpos|_]; [|eauto].
  destruct float_of_int_100 as (c & Hc).
  assert (Hq : exists q, truediv gb (Int alloc) = Ok (Float q)).
  { destruct (max_by Timestamp dps) as [d|] eqn:E.
    - rewrite (latest_gb_some _ _ E) in Hgb. injection Hgb as <-.
      destruct (float_of_int_small alloc) as (x & Hx & _ & Hnz); [lia|].
      simpl. rewrite Hx. simpl. rewrite Hnz by lia. eauto.
    - apply max_by_nil_iff in E. subst. injection Hgb as <-.
      simpl. destruct (Z.eqb_spec alloc 0); [lia|]. eauto. }
  destruct Hq as (q & ->). cbn [rbind]. unfold mul. cbn [to_float rbind].
  rewrite Hc. cbn [rbind round2]. eauto.
Qed.

Lemma Forall_exists_Forall2 {A B} (P : A -> B -> Prop) l :
  Forall (fun a => exists b, P a b) l -> exists l', Forall2 P l l'.
Proof.
  induction 1 as [|a l (b & Hb) _ (l' & IH)].
  - exists []. constructor.
  - exists (b :: l'). now constructor.
Qed.

(** X5.  The collector fails only through its collaborators: when both
    clients are created, the listing is answered, every metric request is
    answered and every allocation is below 2^53 (so that it converts to a
    float exactly), the collector returns one record per instance, without
    raising, after exactly two metric requests per instance in the order of
    the listing. *)
Theorem collector_total w t instances :
  boto3_client w "rds" = Ok tt ->
  boto3_client w "cloudwatch" = Ok tt ->
  describe_db_instances w = Ok instances ->
  Forall (fun i =>
            (exists fs, storage_response w (utcnow w) i = Ok fs) /\
            (exists fm, memory_response w (utcnow w) i = Ok fm) /\
            AllocatedStorage i < 2 ^ 53) instances ->
  exists rows,
    Forall2 (row_of w) instances rows /\
    get_rds_metrics_report w t =
      (Ok rows,
       t ++ [Boto3Client "rds"; Boto3Client "cloudwatch"; DescribeDBInstances]
         ++ concat (map (metric_calls (utcnow w)) instances)).
Proof.
  intros Hr Hc Hd Hall.
  destruct (Forall_exists_Forall2 (row_of w) instances) as (rows & HF).
  { eapply Forall_impl; [exact Hall|].
    intros i ((fs & Hs) & (fm & Hm) & Ha).
    destruct (latest_gb_reported fs) as (gb & Hg & _).
    destruct (latest_gb_reported fm) as (mem & Hf & _).
    destruct (free_storage_percent_total fs gb _ Hg Ha) as (pct & Hp & _).
    eexists. exists fs, fm, gb, pct, mem. repeat split; eauto. }
  exists rows. split; [exact HF|].
  now apply get_rds_metrics_report_run.
Qed.

Lemma collector_total_witness :
  exists rows,
    Forall2 (row_of sample_world) sample_instances rows /\
    get_rds_metrics_report sample_world [] =
      (Ok rows,
       [] ++ [Boto3Client "rds"; Boto3Client "cloudwatch"; DescribeDBInstances]
          ++ concat (map (metric_calls (utcnow sample_world)) sample_instances)).
Proof.
  apply (collector_total sample_world [] sample_instances); try reflexivity.
  repeat constructor; simpl; eauto; vm_compute; reflexivity.
Defined.

(** ** The handler, continued *)

(** X1.  The handler never raises and classifies its outcome by the
    collector alone: when the collector raises, the answer is status 500
    with the exception's text after "Error in lambda_handler: ", the error
    is logged as the last event and nothing is rendered or mailed; whenever
    the collector returns, the status is 200. *)
Theorem handler_status_classification w event t :
  exists resp evs,
    lambda_handler w event t = (Ok resp, t ++ evs) /\
    match get_rds_metrics_report w t with
    | (Raise e, t1) =>
        resp = {| statusCode := 500;
                  body := "Error in lambda_handler: " +:+ str_exn e |} /\
        t ++ evs = t1 ++ [Log "ERROR" ("Error in lambda_handler: " +:+ str_exn e)] /\
        Forall (fun ev => dispatch_event ev = false) evs
    | (Ok _, _) => statusCode resp = 200
    end.
Proof.
  destruct (get_rds_metrics_report_emits w t) as (evs & E & F).
  destruct (get_rds_metrics_report w t) as [[[|row rows]|e] t1] eqn:Hrun;
    simpl in E; subst t1.
  - rewrite (lambda_handler_empty _ event _ _ Hrun).
    eexists _, _. rewrite <- app_assoc. split; reflexivity.
  - destruct (send_report_email_run w (pd_DataFrame (row :: rows))
                (to_csv (pd_DataFrame (row :: rows))) (expected_recipients w event)
                (t ++ evs)) as (b & evs' & Hs & _).
    rewrite (lambda_handler_report _ _ _ _ _ _ _ _ Hrun Hs).
    eexists _, _. rewrite <- app_assoc. split; reflexivity.
  - rewrite (lambda_handler_raise _ event _ _ _ Hrun).
    eexists _, _. rewrite <- app_assoc. split; [reflexivity|].
    split; [reflexivity|]. split; [now rewrite app_assoc|].
    apply Forall_app. split; [exact F|]. now repeat constructor.
Qed.

(** X7.  A payload whose [recipients] value cannot be joined into a [To]
    header (it is not a list of strings, a string or a dict) does not stop
    the handler: once the instances are collected and the SES client is
    created, the join raises, the error is logged, nothing is rendered or
    submitted, and the answer is still 200, saying the mail failed. *)
Theorem malformed_recipients_not_sent w ev v t row rows t1 e :
  ev !! "recipients" = Some v ->
  join_recipients v = Raise e ->
  boto3_client w "ses" = Ok tt ->
  get_rds_metrics_report w t = (Ok (row :: rows), t1) ->
  lambda_handler w (Some ev) t =
    (Ok {| statusCode := 200;
           body := "RDS metrics report generated and failed to send email." |},
     t1 ++ [Boto3Client "ses"; Log "ERROR" ("Error sending email: " +:+ str_exn e)]).
Proof.
  intros Hv Hj Hc Hrun.
  apply (lambda_handler_report _ _ _ _ _ _ false _ Hrun).
  rewrite (expected_recipients_present _ _ _ Hv).
  unfold send_report_email, try_except, send_report_email_try, log, bind, call, lift, ret.
  rewrite Hc, Hj. now rewrite <- app_assoc.
Qed.

Lemma malformed_recipients_not_sent_witness :
  lambda_handler sample_world (Some malformed_event) [] =
    (Ok {| statusCode := 200;
           body := "RDS metrics report generated and failed to send email." |},
     sample_calls
     ++ [Boto3Client "ses";
         Log "ERROR" ("Error sending email: "
                      +:+ str_exn (Exn "TypeError" "sequence item: expected str instance"))]).
Proof.
  apply (malformed_recipients_not_sent sample_world malformed_event
           (JArr [JStr "a@x.com"; JNull]) []
           (report_dict "db-1" "available" 100
              (Float (B64.of_Z 12)) (Float (B64.of_Z 12))
              (Float (B64.of_decimal false 15 1)))
           [report_dict "db-2" "creating" 0 (Int 0) (Int 0) (Int 0)]).
  - reflexivity.
  - reflexivity.
  - reflexivity.
  - vm_compute. reflexivity.
Defined.

Lemma count_submissions_app l l' :
  count_submissions (l ++ l') = (count_submissions l + count_submissions l')%nat.
Proof. unfold count_submissions. now rewrite List.filter_app, length_app. Qed.

Lemma count_submissions_collector evs :
  Forall (fun e => dispatch_event e = false) evs -> count_submissions evs = 0%nat.
Proof.
  unfold count_submissions. induction 1 as [|e evs He _ IH]; [reflexivity|].
  simpl. destruct e; simpl in *; try exact IH. discriminate.
Qed.

Lemma send_report_email_submissions w df csv r t :
  exists b evs,
    send_report_email w df csv r t = (Ok b, t ++ evs) /\
    (count_submissions evs <= 1)%nat /\
    (b = true -> count_submissions evs = 1%nat).
Proof.
  unfold send_report_email, try_except, send_report_email_try, to_html,
    log, bind, call, lift, ret.
  destruct (boto3_client w "ses") as [[]|e];
    [|rewrite <- ?app_assoc; eexists _, _; split; [reflexivity|];
      cbv; split; [lia|discriminate]].
  destruct (join_recipients r) as [to|e];
    [|rewrite <- ?app_assoc; eexists _, _; split; [reflexivity|];
      cbv; split; [lia|discriminate]].
  destruct (format_numeric df) as [fdf|e];
    [|rewrite <- ?app_assoc; eexists _, _; split; [reflexivity|];
      cbv; split; [lia|discriminate]].
  destruct (style_apply highlight_storage_percent fdf) as [st|e];
    [|rewrite <- ?app_assoc; eexists _, _; split; [reflexivity|];
      cbv; split; [lia|discriminate]].
  destruct (render w st) as [html|e];
    [|rewrite <- ?app_assoc; eexists _, _; split; [reflexivity|];
      cbv; split; [lia|discriminate]].
  destruct (as_string w _) as [data|e];
    [|rewrite <- ?app_assoc; eexists _, _; split; [reflexivity|];
      cbv; split; [lia|discriminate]].
  destruct (send_raw_email w _ r _) as [mid|e];
    rewrite <- ?app_assoc; eexists _, _; (split; [reflexivity|]);
    unfold count_submissions; simpl; split; (lia || discriminate || reflexivity).
Qed.

(** X8.  An invocation submits at most one message to SES, and exactly one
    when it reports that the email was sent: there is no retry and no second
    attempt. *)
Theorem at_most_one_submission w event t :
  exists resp evs,
    lambda_handler w event t = (Ok resp, t ++ evs) /\
    (count_submissions evs <= 1)%nat /\
    (body resp = "RDS metrics report generated and email sent successfully." ->
     count_submissions evs = 1%nat).
Proof.
  destruct (get_rds_metrics_report_emits w t) as (evs & E & F).
  pose proof (count_submissions_collector evs F) as H0.
  destruct (get_rds_metrics_report w t) as [[[|row rows]|e] t1] eqn:Hrun;
    simpl in E; subst t1.
  - rewrite (lambda_handler_empty _ event _ _ Hrun).
    eexists _, _. rewrite <- app_assoc. split; [reflexivity|].
    rewrite count_submissions_app, H0. cbv. split; [lia|discriminate].
  - destruct (send_report_email_submissions w (pd_DataFrame (row :: rows))
                (to_csv (pd_DataFrame (row :: rows))) (expected_recipients w event)
                (t ++ evs)) as (b & evs' & Hs & Hle & Hone).
    rewrite (lambda_handler_report _ _ _ _ _ _ _ _ Hrun Hs).
    eexists _, _. rewrite <- app_assoc. split; [reflexivity|].
    rewrite count_submissions_app, H0. simpl. split; [exact Hle|].
    destruct b; [auto|]. cbv. discriminate.
  - rewrite (lambda_handler_raise _ event _ _ _ Hrun).
    eexists _, _. rewrite <- app_assoc. split; [reflexivity|].
    rewrite count_submissions_app, H0. split; [cbv; lia|].
    simpl. destruct (str_exn e); discriminate.
Qed.

(** X11.  An instance without storage samples is reported as having nothing
    free, whatever its allocation: the GB figure is the int 0, the
    percentage prints as 0.00, and a row showing 0.00 is highlighted red. *)
Theorem no_data_is_red alloc :
  latest_gb [] = Ok (Int 0) /\
  exists pct,
    free_storage_percent (Int 0) alloc = Ok pct /\
    format_2f pct = Ok "0.00" /\
    forall row,
      getitem row "Free Storage Space (%)" = Ok (VStr "0.00") ->
      highlight_storage_percent row = Ok [""; ""; ""; ""; red; ""].
Proof.
  split; [reflexivity|].
  assert (Hred : forall row,
            getitem row "Free Storage Space (%)" = Ok (VStr "0.00") ->
            highlight_storage_percent row = Ok [""; ""; ""; ""; red; ""]).
  { intros row Hg.
    assert (Hp : float_of_string "0.00" = Ok (S754_zero false))
      by (vm_compute; reflexivity).
    rewrite (highlight_of_cell _ _ _ Hg Hp). vm_compute. reflexivity. }
  unfold free_storage_percent. destruct (Z.ltb_spec 0 alloc) as [Hpos|Hle].
  - exists (Float (S754_zero false)). split; [|split; [vm_compute; reflexivity|exact Hred]].
    cbn [truediv]. destruct (Z.eqb_spec alloc 0); [lia|]. cbn [Z.eqb rbind].
    destruct (Z.ltb_spec alloc 0); [lia|]. vm_compute. reflexivity.
  - exists (Int 0). split; [reflexivity|]. split; [vm_compute; reflexivity|exact Hred].
Qed.

(** ** The two renderings, continued *)

(** X9.  The table and the attachment show the same rows: the formatted
    frame has the columns of the CSV header, and its rows are, in the same
    order, the CSV rows with the identifier and the state unchanged and each
    number replaced by its text with two decimals.  Formatting works on a
    copy: the CSV keeps the numbers themselves. *)
Theorem table_shows_csv_rows w t rows t' fdf :
  get_rds_metrics_report w t = (Ok rows, t') ->
  rows <> [] ->
  format_numeric (pd_DataFrame rows) = Ok fdf ->
  head (to_csv (pd_DataFrame rows)) = Some (map VStr (columns fdf)) /\
  Forall2 (fun csv_line line =>
             exists id st alloc gb pct mem s1 s2 s3 s4,
               csv_line = [VStr id; VStr st; VNum (Int alloc);
                           VNum gb; VNum pct; VNum mem] /\
               format_2f (Int alloc) = Ok s1 /\ format_2f gb = Ok s2 /\
               format_2f pct = Ok s3 /\ format_2f mem = Ok s4 /\
               line = [VStr id; VStr st; VStr s1; VStr s2; VStr s3; VStr s4])
    (tail (to_csv (pd_DataFrame rows))) (data fdf).
Proof.
  intros Hrun Hne Hfmt.
  pose proof (collected_rows_shape _ _ _ _ Hrun) as Hshape.
  rewrite (pd_DataFrame_report rows Hshape Hne) in *.
  apply (format_numeric_report rows fdf Hshape) in Hfmt as [Hcols Hlines].
  unfold to_csv. simpl. split; [now rewrite Hcols|].
  clear - Hlines. induction Hlines as [|row line rows lines H _ IH]; simpl;
    constructor; [|exact IH].
  destruct H as (id & st & alloc & gb & pct & mem & s1 & s2 & s3 & s4
                 & -> & H1 & H2 & H3 & H4 & ->).
  exists id, st, alloc, gb, pct, mem, s1, s2, s3, s4. auto 10.
Qed.

Lemma table_shows_csv_rows_witness :
  head (to_csv (pd_DataFrame sample_rows))
    = Some (map VStr (columns (frame sample_styler))) /\
  Forall2 (fun csv_line line =>
             exists id st alloc gb pct mem s1 s2 s3 s4,
               csv_line = [VStr id; VStr st; VNum (Int alloc);
                           VNum gb; VNum pct; VNum mem] /\
               format_2f (Int alloc) = Ok s1 /\ format_2f gb = Ok s2 /\
               format_2f pct = Ok s3 /\ format_2f mem = Ok s4 /\
               line = [VStr id; VStr st; VStr s1; VStr s2; VStr s3; VStr s4])
    (tail (to_csv (pd_DataFrame sample_rows))) (data (frame sample_styler)).
Proof.
  apply (table_shows_csv_rows sample_world [] sample_rows sample_calls
           (frame sample_styler)).
  - vm_compute. reflexivity.
  - discriminate.
  - vm_compute. reflexivity.
Defined.

Lemma rmap_ok {A B} (f : A -> result B) l l' :
  Forall2 (fun a b => f a = Ok b) l l' -> rmap f l = Ok l'.
Proof.
  induction 1 as [|a b l l' Hab _ IH]; simpl; [reflexivity|].
  now rewrite Hab, IH.
Qed.

Lemma apply_column_ok f col df i rows' :
  index_of col (columns df) = Some i ->
  Forall2 (fun row row' =>
             match row !! i with
             | Some v => (v' <- f v ;; Ok (<[i := v']> row))%result
             | None => Ok row
             end = Ok row') (data df) rows' ->
  apply_column f col df = Ok {| columns := columns df; data := rows' |}.
Proof.
  intros Hi HF. unfold apply_column. rewrite Hi.
  now rewrite (rmap_ok _ _ _ HF).
Qed.

Lemma Forall2_zip_with {A B C D} (R : A -> B -> Prop) (P : C -> D -> Prop)
    (g : A -> B -> C) (h : A -> B -> D) l k :
  Forall2 R l k -> (forall a b, R a b -> P (g a b) (h a b)) ->
  Forall2 P (zip_with g l k) (zip_with h l k).
Proof.
  intros HF HP. induction HF; simpl; constructor; auto.
Qed.

Lemma zip_with_fst {A B C} (R : A -> B -> Prop) (g : A -> B -> C) (g' : A -> C) l k :
  Forall2 R l k -> (forall a b, R a b -> g a b = g' a) ->
  zip_with g l k = map g' l.
Proof.
  intros HF Hg. induction HF; simpl; [reflexivity|]. f_equal; auto.
Qed.

Lemma zip_with_snd {A B} (R : A -> B -> Prop) (g : A -> B -> B) l k :
  Forall2 R l k -> (forall a b, R a b -> g a b = b) ->
  zip_with g l k = k.
Proof.
  intros HF Hg. induction HF; simpl; [reflexivity|]. f_equal; auto.
Qed.

Lemma format_numeric_formatted rows lines :
  Forall2 formatted_as rows lines ->
  format_numeric {| columns := report_columns; data := map (map snd) rows |}
  = Ok {| columns := report_columns; data := lines |}.
Proof.
  intros HF. unfold format_numeric, numeric_columns. simpl fold_left.
  set (mix := fun (k : nat) (row : report_row) (line : list value) =>
                firstn k line ++ skipn k (map snd row)).
  assert (Hstep : forall (k : nat) col,
            (2 <= k <= 5)%nat ->
            index_of col report_columns = Some k ->
            apply_column format_cell col
              {| columns := report_columns; data := zip_with (mix k) rows lines |}
            = Ok {| columns := report_columns;
                    data := zip_with (mix (S k)) rows lines |}).
  { intros k col Hk Hi.
    apply (apply_column_ok format_cell col
             {| columns := report_columns; data := zip_with (mix k) rows lines |} k);
      [exact Hi|]. cbn [data].
    apply (Forall2_zip_with formatted_as); [exact HF|].
    intros row line (id & st & alloc & gb & pct & mem & s1 & s2 & s3 & s4
                     & -> & H1 & H2 & H3 & H4 & ->).
    assert (Ek : (k = 2 \/ k = 3 \/ k = 4 \/ k = 5)%nat) by lia.
    destruct Ek as [-> | [-> | [-> | ->]]]; cbn; [rewrite H1|rewrite H2|rewrite H3|rewrite H4];
      reflexivity. }
  assert (H0 : map (map snd) rows = zip_with (mix 2%nat) rows lines).
  { symmetry. apply (zip_with_fst formatted_as); [exact HF|].
    intros row line (id & st & alloc & gb & pct & mem & s1 & s2 & s3 & s4
                     & -> & _ & _ & _ & _ & ->). reflexivity. }
  assert (H6 : zip_with (mix 6%nat) rows lines = lines).
  { apply (zip_with_snd formatted_as); [exact HF|].
    intros row line (id & st & alloc & gb & pct & mem & s1 & s2 & s3 & s4
                     & -> & _ & _ & _ & _ & ->). reflexivity. }
  rewrite H0.
  rewrite (Hstep 2%nat "Allocated Space (GB)") by (lia || reflexivity). cbn [rbind].
  rewrite (Hstep 3%nat "Free Storage Space (GB)") by (lia || reflexivity). cbn [rbind].
  rewrite (Hstep 4%nat "Free Storage Space (%)") by (lia || reflexivity). cbn [rbind].
  rewrite (Hstep 5%nat "Freeable Memory (GB)") by (lia || reflexivity).
  now rewrite H6.
Qed.

Lemma format_2f_float_ok x : format_2f (Float x) = Ok (format_2f_float x).
Proof. reflexivity. Qed.

Lemma format_2f_small z :
  - 2 ^ 53 < z < 2 ^ 53 -> exists s, format_2f (Int z) = Ok s.
Proof.
  intros Hz. destruct (float_of_int_small z Hz) as (x & Hx & _).
  unfold format_2f. cbn [to_float]. rewrite Hx. simpl. eauto.
Qed.

Lemma latest_gb_printable dps gb :
  latest_gb dps = Ok gb -> exists s, format_2f gb = Ok s.
Proof.
  intros H. destruct (max_by Timestamp dps) as [d|] eqn:E.
  - rewrite (latest_gb_some _ _ E) in H. injection H as <-. eauto using format_2f_float_ok.
  - apply max_by_nil_iff in E. subst. injection H as <-.
    exists "0.00". vm_compute. reflexivity.
Qed.

Lemma highlight_formatted row line :
  formatted_as row line ->
  exists styles,
    highlight_storage_percent (combine report_columns line) = Ok styles /\
    In styles highlight_styles.
Proof.
  intros (id & st & alloc & gb & pct & mem & s1 & s2 & s3 & s4
          & -> & _ & _ & H3 & _ & ->).
  apply format_2f_inv in H3 as (f & _ & ->).
  assert (Hg : getitem (combine report_columns
                          [VStr id; VStr st; VStr s1; VStr s2;
                           VStr (format_2f_float f); VStr s4])
                 "Free Storage Space (%)" = Ok (VStr (format_2f_float f)))
    by reflexivity.
  rewrite (highlight_of_cell _ _ _ Hg (float_of_format f)).
  unfold highlight_styles.
  destruct (float_lt_int (B64.round2 f) 15); [simpl; eauto|].
  destruct (float_lt_int (B64.round2 f) 20); simpl; eauto 6.
Qed.

(** X10.  Rendering cannot fail on the collector's own records: when every
    allocation is within 2^53 in absolute value, formatting the four
    numeric columns succeeds and so does highlighting (no missing column,
    no unreadable number, one style per column), and every row gets one of
    the three style lists.  What remains able to fail in the dispatcher is
    outside the handler: the SES client, the recipients, the template
    engine, the writing out of the message and the submission. *)
Theorem rendering_never_fails w t rows t' instances :
  get_rds_metrics_report w t = (Ok rows, t') ->
  rows <> [] ->
  describe_db_instances w = Ok instances ->
  Forall (fun i => - 2 ^ 53 < AllocatedStorage i < 2 ^ 53) instances ->
  exists fdf st,
    format_numeric (pd_DataFrame rows) = Ok fdf /\
    style_apply highlight_storage_percent fdf = Ok st /\
    frame st = fdf /\
    length (css st) = length rows /\
    Forall (fun styles => In styles highlight_styles) (css st) /\
    forall csv r t0,
      fst (send_report_email w (pd_DataFrame rows) csv r t0) = Ok true <->
      boto3_client w "ses" = Ok tt /\
      exists to html data mid,
        join_recipients r = Ok to /\
        render w st = Ok html /\
        as_string w (report_message w to html csv) = Ok data /\
        send_raw_email w "admin01@readywire.com" r data = Ok mid.
Proof.
  intros Hrun Hne Hd Hbound.
  pose proof (collected_rows_shape _ _ _ _ Hrun) as Hshape.
  rewrite (pd_DataFrame_report rows Hshape Hne).
  apply get_rds_metrics_report_inv in Hrun as (instances' & Hd' & HF).
  assert (instances' = instances) by congruence. subst instances'. clear Hd'.
  assert (Hlines : exists lines, Forall2 formatted_as rows lines).
  { apply Forall_exists_Forall2. clear - HF Hbound.
    induction HF as [|i row instances rows Hrow _ IH]; constructor.
    - apply Forall_cons_1 in Hbound as [Hi _].
      destruct Hrow as (fs & fm & gb & pct & mem & _ & _ & Hg & Hp & Hf & ->).
      destruct (format_2f_small _ Hi) as (s1 & H1).
      destruct (latest_gb_printable _ _ Hg) as (s2 & H2).
      destruct (latest_gb_printable _ _ Hf) as (s4 & H4).
      destruct (free_storage_percent_total fs gb (AllocatedStorage i) Hg ltac:(lia))
        as (pct' & Hp' & Hshape).
      assert (pct' = pct) by congruence. subst pct'.
      assert (H3 : exists s3, format_2f pct = Ok s3).
      { destruct Hshape as [->|(x & ->)]; [exists "0.00"; vm_compute; reflexivity|].
        eauto using format_2f_float_ok. }
      destruct H3 as (s3 & H3).
      eexists. exists (DBInstanceIdentifier i), (DBInstanceStatus i),
        (AllocatedStorage i), gb, pct, mem, s1, s2, s3, s4. auto 10.
    - apply IH. now apply Forall_cons_1 in Hbound as [_ ?]. }
  destruct Hlines as (lines & Hlines).
  assert (Hcss : exists sts, Forall2 (fun line styles =>
             highlight_storage_percent (combine report_columns line) = Ok styles /\
             In styles highlight_styles) lines sts).
  { apply Forall_exists_Forall2. clear - Hlines.
    induction Hlines as [|row line rows lines H _ IH]; constructor; [|exact IH].
    now apply (highlight_formatted row). }
  destruct Hcss as (sts & Hcss).
  exists {| columns := report_columns; data := lines |},
         {| frame := {| columns := report_columns; data := lines |}; css := sts |}.
  split; [now apply format_numeric_formatted|]. split.
  - unfold style_apply. cbn [columns data].
    rewrite (rmap_ok _ lines sts); [reflexivity|].
    eapply Forall2_impl; [exact Hcss|]. intros line styles [Hh Hin].
    rewrite Hh. cbn [rbind]. unfold highlight_styles in Hin. simpl in Hin.
    destruct Hin as [<-|[<-|[<-|[]]]]; reflexivity.
  - split; [reflexivity|]. cbn [css]. split; [|split].
    + apply Forall2_length in Hlines, Hcss. lia.
    + clear - Hcss. induction Hcss as [|? ? ? ? [_ H] _ IH]; constructor; auto.
    + intros csv r t0.
      set (df := {| columns := report_columns; data := map (map snd) rows |}).
      set (fdf := {| columns := report_columns; data := lines |}).
      set (st := {| frame := fdf; css := sts |}).
      assert (Hfmt : format_numeric df = Ok fdf) by now apply format_numeric_formatted.
      assert (Hsty : style_apply highlight_storage_percent fdf = Ok st).
      { unfold style_apply, fdf. cbn [columns data].
        rewrite (rmap_ok _ lines sts); [reflexivity|].
        eapply Forall2_impl; [exact Hcss|]. intros line styles [Hh Hin].
        rewrite Hh. cbn [rbind]. unfold highlight_styles in Hin. simpl in Hin.
        destruct Hin as [<-|[<-|[<-|[]]]]; reflexivity. }
      unfold send_report_email, try_except.
      destruct (send_report_email_try_cases w df csv r t0)
        as [(to & fdf' & st' & html & data & mid
             & H1 & H2 & H3 & H4 & H5 & H6 & H7 & ->)
           |(e & evs & -> & _ & Hwhy)].
      * assert (fdf' = fdf) by congruence. subst fdf'.
        assert (st' = st) by congruence. subst st'.
        simpl. split; [eauto 10|reflexivity].
      * unfold log, bind, call, ret. simpl. split; [discriminate|].
        intros (H1 & to & html & data & mid & H2 & H5 & H6 & H7). exfalso.
        destruct Hwhy as [H|[H|[H|[(fdf' & Hf & H)|[(fdf' & st' & Hf & Hs & H)
                           |[(to' & fdf' & st' & html' & Hj & Hf & Hs & Hh & H)
                            |(to' & fdf' & st' & html' & data' & Hj & Hf & Hs & Hh
                              & Ha & H)]]]]]];
          congruence.
Qed.

Lemma rendering_never_fails_witness :
  exists fdf st,
    format_numeric (pd_DataFrame sample_rows) = Ok fdf /\
    style_apply highlight_storage_percent fdf = Ok st /\
    frame st = fdf /\
    length (css st) = length sample_rows /\
    Forall (fun styles => In styles highlight_styles) (css st) /\
    forall csv r t0,
      fst (send_report_email sample_world (pd_DataFrame sample_rows) csv r t0)
      = Ok true <->
      boto3_client sample_world "ses" = Ok tt /\
      exists to html data mid,
        join_recipients r = Ok to /\
        render sample_world st = Ok html /\
        as_string sample_world (report_message sample_world to html csv) = Ok data /\
        send_raw_email sample_world "admin01@readywire.com" r data = Ok mid.
Proof.
  apply (rendering_never_fails sample_world [] sample_rows sample_calls sample_instances).
  - vm_compute. reflexivity.
  - discriminate.
  - reflexivity.
  - repeat constructor.
Defined.

(** ** The dispatcher, continued *)

Lemma rmap_as_str l : rmap as_str (map JStr l) = Ok l.
Proof. induction l as [|s l IH]; simpl; [reflexivity|]. now rewrite IH. Qed.

(** X13.  The default recipients always make a [To] header: without a
    [recipients] key in the payload, joining the resolved list cannot raise,
    and the header is the configured string (or the hard-coded address) with
    every comma replaced by a comma and a blank. *)
Theorem default_recipients_join w event :
  (event = None \/ exists ev, event = Some ev /\ ev !! "recipients" = None) ->
  join_recipients (expected_recipients w event) =
    Ok (String.concat ", "
          (split_comma
             (default "saasadmin@readywire.com" (environ w !! "EMAIL_RECIPIENTS")))).
Proof.
  intros H. rewrite (expected_recipients_absent _ _ H).
  unfold join_recipients. now rewrite rmap_as_str.
Qed.

Lemma default_recipients_join_witness :
  join_recipients (expected_recipients configured_world None) =
    Ok (String.concat ", "
          (split_comma
             (default "saasadmin@readywire.com"
                (environ configured_world !! "EMAIL_RECIPIENTS")))).
Proof.
  apply default_recipients_join. now left.
Defined.

Lemma apply_column_columns f col df df' :
  apply_column f col df = Ok df' -> columns df' = columns df.
Proof.
  unfold apply_column. destruct (index_of col (columns df)); [|discriminate].
  destruct (rmap _ (data df)); simpl; [|discriminate]. now intros [= <-].
Qed.

Lemma apply_column_missing f col df :
  index_of col (columns df) = None -> exists e, apply_column f col df = Raise e.
Proof. intros H. unfold apply_column. rewrite H. eauto. Qed.

Lemma format_numeric_missing df col :
  In col numeric_columns ->
  index_of col (columns df) = None ->
  exists e, format_numeric df = Raise e.
Proof.
  intros Hin Hi. unfold format_numeric, numeric_columns in *. simpl fold_left.
  destruct (apply_column format_cell "Allocated Space (GB)" df) as [d1|e] eqn:E1;
    [|simpl; eauto].
  pose proof (apply_column_columns _ _ _ _ E1) as C1. cbn [rbind].
  destruct (apply_column format_cell "Free Storage Space (GB)" d1) as [d2|e] eqn:E2;
    [|simpl; eauto].
  pose proof (apply_column_columns _ _ _ _ E2) as C2. cbn [rbind].
  destruct (apply_column format_cell "Free Storage Space (%)" d2) as [d3|e] eqn:E3;
    [|simpl; eauto].
  pose proof (apply_column_columns _ _ _ _ E3) as C3. cbn [rbind].
  simpl in Hin. destruct Hin as [<-|[<-|[<-|[<-|[]]]]].
  - destruct (apply_column_missing format_cell _ df Hi). congruence.
  - rewrite <- C1 in Hi. destruct (apply_column_missing format_cell _ d1 Hi). congruence.
  - rewrite <- C1, <- C2 in Hi.
    destruct (apply_column_missing format_cell _ d2 Hi). congruence.
  - rewrite <- C1, <- C2, <- C3 in Hi.
    exact (apply_column_missing format_cell _ d3 Hi).
Qed.

(** X14.  [send_report_email] does not trust its frame: when one of the
    four numeric columns is missing, the formatting raises [KeyError], which
    is caught; the function returns [False] without rendering the table and
    without submitting anything. *)
Theorem missing_column_not_sent w df csv r t col :
  In col numeric_columns ->
  index_of col (columns df) = None ->
  exists evs,
    send_report_email w df csv r t = (Ok false, t ++ evs) /\
    Forall (fun e => e <> ToHtml /\ is_submission e = false) evs.
Proof.
  intros Hin Hi. destruct (format_numeric_missing df col Hin Hi) as (e & He).
  unfold send_report_email, try_except, send_report_email_try, to_html,
    log, bind, call, lift, ret.
  destruct (boto3_client w "ses") as [[]|e1];
    [|rewrite <- ?app_assoc; eexists; split; [reflexivity|];
      repeat constructor; discriminate].
  destruct (join_recipients r) as [to|e2];
    [|rewrite <- ?app_assoc; eexists; split; [reflexivity|];
      repeat constructor; discriminate].
  rewrite He. rewrite <- ?app_assoc. eexists. split; [reflexivity|].
  repeat constructor; discriminate.
Qed.

Lemma missing_column_not_sent_witness :
  exists evs,
    send_report_email sample_world short_frame [] (JArr [JStr "a@x.com"]) []
    = (Ok false, [] ++ evs) /\
    Forall (fun e => e <> ToHtml /\ is_submission e = false) evs.
Proof.
  apply (missing_column_not_sent sample_world short_frame [] (JArr [JStr "a@x.com"]) []
           "Freeable Memory (GB)").
  - simpl. auto.
  - reflexivity.
Defined.

(** ** The selection of the latest sample, continued *)

Lemma fold_best_keep {A} (key : A -> Z) l b :
  (forall x, In x l -> key x <= key b) ->
  fold_left (fun best y => if key best <? key y then y else best) l b = b.
Proof.
  revert b. induction l as [|y l IH]; intros b H; simpl; [reflexivity|].
  destruct (Z.ltb_spec (key b) (key y)) as [Hlt|_].
  - specialize (H y (or_introl eq_refl)). lia.
  - apply IH. intros x Hx. apply H. now right.
Qed.

Lemma fold_best_reach {A} (key : A -> Z) l1 d l2 b :
  (forall x, In x l1 -> key x < key d) ->
  key b < key d ->
  (forall x, In x l2 -> key x <= key d) ->
  fold_left (fun best y => if key best <? key y then y else best) (l1 ++ d :: l2) b = d.
Proof.
  revert b. induction l1 as [|y l1 IH]; intros b H1 Hb H2; simpl.
  - destruct (Z.ltb_spec (key b) (key d)); [|lia]. now apply fold_best_keep.
  - apply IH; [intros x Hx; apply H1; now right| |exact H2].
    destruct (key b <? key y); [apply H1; now left|exact Hb].
Qed.

(** X15.  Which sample is the latest: the one whose timestamp is strictly
    above all samples before it and at least that of all samples after it.
    So among samples sharing the largest timestamp the first in the response
    is used, as Python's [max] does. *)
Theorem latest_is_first_maximum before d after :
  (forall x, In x before -> Timestamp x < Timestamp d) ->
  (forall x, In x after -> Timestamp x <= Timestamp d) ->
  max_by Timestamp (before ++ d :: after) = Some d /\
  latest_gb (before ++ d :: after)
    = Ok (Float (B64.round2 (B64.div (Average d) GiB))).
Proof.
  intros H1 H2.
  assert (E : max_by Timestamp (before ++ d :: after) = Some d).
  { destruct before as [|b before]; simpl.
    - f_equal. now apply fold_best_keep.
    - f_equal. apply fold_best_reach; [|apply H1; now left|exact H2].
      intros x Hx. apply H1. now right. }
  split; [exact E|]. now apply latest_gb_some.
Qed.

Lemma latest_is_first_maximum_witness :
  max_by Timestamp
    ([ {| Timestamp := 1699999400; Average := B64.of_Z (13 * 2 ^ 30) |} ]
     ++ {| Timestamp := 1699999700; Average := B64.of_Z (12 * 2 ^ 30) |}
     :: [ {| Timestamp := 1699999700; Average := B64.of_Z (14 * 2 ^ 30) |} ])
  = Some {| Timestamp := 1699999700; Average := B64.of_Z (12 * 2 ^ 30) |} /\
  latest_gb
    ([ {| Timestamp := 1699999400; Average := B64.of_Z (13 * 2 ^ 30) |} ]
     ++ {| Timestamp := 1699999700; Average := B64.of_Z (12 * 2 ^ 30) |}
     :: [ {| Timestamp := 1699999700; Average := B64.of_Z (14 * 2 ^ 30) |} ])
  = Ok (Float (B64.round2
                 (B64.div
                    (Average {| Timestamp := 1699999700;
                                Average := B64.of_Z (12 * 2 ^ 30) |}) GiB))).
Proof.
  apply latest_is_first_maximum.
  - intros x [<-|[]]. simpl. lia.
  - intros x [<-|[]]. simpl. lia.
Defined.
